(** * dvgrab-gui: the capture-session core of [dvgrab.py]

    A shallow embedding of the functions of [dvgrab.py] that decide how a
    capture session is prepared: [_as_int] and [App._gather_values]
    (configuration), [find_next_subfolder] (directory allocation),
    [which_dvgrab] and [build_dvgrab_cmd] (argument vector),
    [App.copy_command] and [App.start_capture] (session control) and
    [App._read_stream] (log lines).

    Conventions of the embedding.
    - A Python [str] is a [string] whose characters are the code points
      0..255; the character classes below ([str.strip], [str.isdigit],
      [int], [\d]) are Python's, restricted to that range.
    - A Python [int] is a [Z].  CPython bounds the number of decimal digits
      accepted by [int(str)] and produced by [str(int)]
      ([sys.get_int_max_str_digits()], 0 meaning no bound); the bound is the
      field [max_str_digits] of the class [Interp], and the properties hold
      for every value of it.  Floats, lists and nested dicts are not
      modelled: the code below stores none in the values it reads.
    - A raised exception is the [Raise] case of [result]; a function that
      mutates [self.cfg] returns the new mapping.
    - The file system, the PATH search and process creation are answers
      recorded in [Env] and [World]; each is asked as the source asks it,
      and an answer can be the exception the call raises. *)

From Stdlib Require Import ZArith Ascii String List Lia.
From stdpp Require Import base option gmap strings list.

Local Open Scope Z_scope.
Local Open Scope string_scope.
Local Open Scope list_scope.

(** ** Exceptions and results *)

Inductive exn : Type :=
  | KeyError (key : string)
  | ValueError
  | TypeError
  | OSError.

Inductive result (A : Type) : Type :=
  | Ok (a : A)
  | Raise (e : exn).
Arguments Ok {A} a.
Arguments Raise {A} e.

#[global] Instance result_ret : MRet result := fun A a => Ok a.
#[global] Instance result_bind : MBind result := fun A B f r =>
  match r with
  | Ok a => f a
  | Raise e => Raise e
  end.

Definition is_ok {A} (r : result A) : bool :=
  match r with Ok _ => true | Raise _ => false end.

(** ** Characters and strings as Python sees them *)

Definition CR : ascii := "013"%char.
Definition LF : ascii := "010"%char.

Definition code (c : ascii) : N := N_of_ascii c.

(** [str.isspace] on code points below 256. *)
Definition is_space (c : ascii) : bool :=
  let n := code c in
  ((9 <=? n) && (n <=? 13) || (28 <=? n) && (n <=? 32)
   || (n =? 133) || (n =? 160))%N.

(** A decimal digit: what [int] and the pattern [\d] accept. *)
Definition is_decimal (c : ascii) : bool :=
  let n := code c in ((48 <=? n) && (n <=? 57))%N.

(** [str.isdigit] also accepts the superscript digits of Latin-1. *)
Definition is_digit (c : ascii) : bool :=
  let n := code c in
  is_decimal c || ((n =? 178) || (n =? 179) || (n =? 185))%N.

Definition digit_value (c : ascii) : Z := Z.of_N (code c) - 48.

Definition digit_char (d : Z) : ascii := ascii_of_N (Z.to_N (d + 48)).

Fixpoint forallb_str (p : ascii -> bool) (s : string) : bool :=
  match s with
  | EmptyString => true
  | String c r => p c && forallb_str p r
  end.

Definition is_empty (s : string) : bool :=
  match s with EmptyString => true | String _ _ => false end.

(** White space that [int] skips around a literal: the ASCII blanks, and
    the white space above 127 (which the conversion first turns into
    blanks).  The separators 28..31 are white space for [str.strip] only. *)
Definition is_int_space (c : ascii) : bool :=
  let n := code c in
  ((9 <=? n) && (n <=? 13) || (n =? 32) || (n =? 133) || (n =? 160))%N.

(** Dropping the characters of a class at the left and at the right. *)
Fixpoint lstrip_by (p : ascii -> bool) (s : string) : string :=
  match s with
  | EmptyString => EmptyString
  | String c r => if p c then lstrip_by p r else s
  end.

Fixpoint rstrip_by (p : ascii -> bool) (s : string) : string :=
  match s with
  | EmptyString => EmptyString
  | String c r =>
      let r' := rstrip_by p r in
      if is_empty r' && p c then EmptyString else String c r'
  end.

(** [s.lstrip()], [s.rstrip()], [s.strip()]. *)
Definition lstrip (s : string) : string := lstrip_by is_space s.
Definition rstrip (s : string) : string := rstrip_by is_space s.
Definition strip (s : string) : string := rstrip (lstrip s).

(** [s.isdigit()]: at least one character, all of them digits. *)
Definition isdigit (s : string) : bool :=
  negb (is_empty s) && forallb_str is_digit s.

(** [sep in s] for a one-character [sep]. *)
Fixpoint contains (sep : ascii) (s : string) : bool :=
  match s with
  | EmptyString => false
  | String c r => Ascii.eqb c sep || contains sep r
  end.

(** [s.split(sep)] for a one-character [sep]: one more fragment than there
    are separators. *)
Fixpoint split (sep : ascii) (s : string) : list string :=
  match s with
  | EmptyString => [EmptyString]
  | String c r =>
      if Ascii.eqb c sep then EmptyString :: split sep r
      else match split sep r with
           | [] => [String c EmptyString]
           | f :: fs => String c f :: fs
           end
  end.

(** [sep.join(l)]. *)
Fixpoint join (sep : string) (l : list string) : string :=
  match l with
  | [] => EmptyString
  | [x] => x
  | x :: r => x +:+ sep +:+ join sep r
  end.

(** [s.startswith(p)], returning the rest of [s]. *)
Fixpoint after_prefix (p s : string) : option string :=
  match p, s with
  | EmptyString, _ => Some s
  | String a p', String b s' =>
      if Ascii.eqb a b then after_prefix p' s' else None
  | String _ _, EmptyString => None
  end.

(** ** Integers and their decimal text *)

Class Interp := { max_str_digits : nat }.

(** CPython's default bound (3.11 and later). *)
Definition cpython : Interp := {| max_str_digits := 4300 |}.

Section Integers.
Context {I : Interp}.

(** The test CPython makes on a number of decimal digits: the bound is
    looked at only above 640 digits, the least bound that can be set. *)
Definition too_many_digits (n : nat) : bool :=
  (640 <? n)%nat && (0 <? max_str_digits)%nat && (max_str_digits <? n)%nat.

(** The digits of a literal after its first one: digits, each possibly
    preceded by one underscore.  [acc] is the value read so far and [cnt]
    the number of digits read. *)
Fixpoint parse_digits (acc : Z) (cnt : nat) (s : string) : option (Z * nat) :=
  match s with
  | EmptyString => Some (acc, cnt)
  | String c r =>
      if is_decimal c then parse_digits (acc * 10 + digit_value c) (S cnt) r
      else if Ascii.eqb c "_" then
        match r with
        | String d r' =>
            if is_decimal d
            then parse_digits (acc * 10 + digit_value d) (S cnt) r'
            else None
        | EmptyString => None
        end
      else None
  end.

Definition parse_literal (s : string) : option (Z * nat) :=
  match s with
  | String c _ => if is_decimal c then parse_digits 0 0%nat s else None
  | EmptyString => None
  end.

(** [int(s)] for a string: surrounding white space, an optional sign,
    then the literal. *)
Definition int_of_str (s : string) : result Z :=
  let t := rstrip_by is_int_space (lstrip_by is_int_space s) in
  let '(neg, body) :=
    match t with
    | String "-" r => (true, r)
    | String "+" r => (false, r)
    | _ => (false, t)
    end in
  match parse_literal body with
  | Some (v, cnt) =>
      if too_many_digits cnt then Raise ValueError
      else Ok (if neg then - v else v)
  | None => Raise ValueError
  end.

(** The decimal digits of [n >= 0], most significant first, put in front
    of [acc]. *)
Fixpoint digits_go (fuel : nat) (n : Z) (acc : string) : string :=
  match fuel with
  | O => acc
  | S f =>
      let acc' := String (digit_char (n mod 10)) acc in
      if (n <? 10)%Z then acc' else digits_go f (n / 10) acc'
  end.

Definition digits (n : Z) : string :=
  digits_go (S (Z.to_nat (Z.log2 n))) n EmptyString.

(** [str(z)] for an int. *)
Definition str_of_int (z : Z) : result string :=
  let ds := digits (Z.abs z) in
  if too_many_digits (String.length ds) then Raise ValueError
  else Ok (if (z <? 0)%Z then String "-" ds else ds).
End Integers.

(** ** Python values held by the [values] dict

    [App._gather_values] stores strings, booleans and integers; [None] is
    what [dict.get] answers for a missing key.  (Its last entry,
    ["next_index_by_dir"], is the mapping kept in [cfg] below, an alias that
    [build_dvgrab_cmd] never reads.) *)

Inductive pyval : Type :=
  | VNone
  | VBool (b : bool)
  | VInt (z : Z)
  | VStr (s : string).

(** Truth value of an object. *)
Definition truthy (v : pyval) : bool :=
  match v with
  | VNone => false
  | VBool b => b
  | VInt z => negb (z =? 0)%Z
  | VStr s => negb (is_empty s)
  end.

(** [a or b]. *)
Definition py_or (a b : pyval) : pyval := if truthy a then a else b.

(** [v == s] for a string literal [s]: only an equal [str] compares equal. *)
Definition eq_str (v : pyval) (s : string) : bool :=
  match v with
  | VStr t => String.eqb t s
  | _ => false
  end.

(** [values[k]], [values.get(k)] and [values.get(k, d)]. *)
Definition dict_index (values : gmap string pyval) (k : string) : result pyval :=
  match values !! k with
  | Some v => Ok v
  | None => Raise (KeyError k)
  end.

Definition dict_get (values : gmap string pyval) (k : string) : pyval :=
  default VNone (values !! k).

Definition dict_get_default (values : gmap string pyval) (k : string)
    (d : pyval) : pyval :=
  default d (values !! k).

Section Conversions.
Context {I : Interp}.

(** [int(v)]. *)
Definition py_int (v : pyval) : result Z :=
  match v with
  | VNone => Raise TypeError
  | VBool b => Ok (if b then 1 else 0)
  | VInt z => Ok z
  | VStr s => int_of_str s
  end.

(** [str(v)]. *)
Definition py_str (v : pyval) : result string :=
  match v with
  | VNone => Ok "None"
  | VBool b => Ok (if b then "True" else "False")
  | VInt z => str_of_int z
  | VStr s => Ok s
  end.
End Conversions.

(** ** Paths ([pathlib.PurePosixPath])

    A path is its root (empty, ["/"] or ["//"]) and its components; the
    components never contain a separator, are never empty and never ["."]. *)

Record Path : Type := mkPath { root : string; parts : list string }.

Definition is_part (s : string) : bool :=
  negb (is_empty s) && negb (String.eqb s ".").

(** [Path(s)]. *)
Definition path_of_str (s : string) : Path :=
  let r :=
    match s with
    | String "/" (String "/" (String "/" _)) => "/"
    | String "/" (String "/" _) => "//"
    | String "/" _ => "/"
    | _ => ""
    end in
  mkPath r (filter (fun p => Is_true (is_part p)) (split "/" s)).

(** [str(p)], which is also [p.as_posix()]. *)
Definition path_str (p : Path) : string :=
  match root p, parts p with
  | EmptyString, [] => "."
  | r, ps => r +:+ join "/" ps
  end.

(** [p / s]. *)
Definition path_join (p : Path) (s : string) : Path :=
  let q := path_of_str s in
  if is_empty (root q) then mkPath (root p) (parts p ++ parts q) else q.

(** Objects of [pathlib] define neither [__bool__] nor [__len__]. *)
Definition path_truthy (p : Path) : bool := true.

(** ** The executable and the argument vector *)

(** What the file system and the PATH search answer.  [Path(s).exists()]
    answers, or raises what the file system reports for a path it cannot
    look at (a name that is too long, a directory that may not be
    searched); [shutil.which(s)] catches such errors itself and answers
    [None]. *)
Record Env : Type := mkEnv {
  path_exists : string -> result bool;
  which : string -> option string
}.

(** [shutil.which] answers [None] or a path; [found or x]. *)
Definition found_or (found : option string) (x : string) : string :=
  match found with
  | Some f => if is_empty f then x else f
  | None => x
  end.

Definition which_dvgrab (env : Env) (path_pref : pyval) : result string :=
  match path_pref with
  | VStr s =>
      (* path_pref and (Path(path_pref).exists() or "/" in path_pref) *)
      direct ← (if negb (is_empty s)
                then there ← path_exists env s; Ok (there || contains "/" s)
                else Ok false);
      if (direct : bool) then Ok s
      else
        let found := which env (if is_empty s then "dvgrab" else s) in
        Ok (found_or found (if is_empty s then "dvgrab" else s))
  | _ =>
      if truthy path_pref then Raise TypeError  (* Path(non-str) *)
      else Ok (found_or (which env "dvgrab") "dvgrab")
  end.

Definition formats : list string := ["dv2"; "dv1"; "raw"; "qt"; "mov"; "avi"].

(** The tokens of the format selector: [if fmt: ...], nothing for a value
    that is not one of the known names. *)
Definition format_opt (fmt : pyval) : list string :=
  match fmt with
  | VStr f =>
      if negb (is_empty f) then
        if String.eqb f "mpeg2" then ["-format"; "mpeg2"]
        else if bool_decide (f ∈ formats) then ["-format"; f]
        else []
      else []
  | _ => []
  end.

(** The token of the filename scheme. *)
Definition scheme_opt (scheme : pyval) : list string :=
  if eq_str scheme "timestamp" then ["-timestamp"]
  else if eq_str scheme "timecode" then ["-timecode"]
  else if eq_str scheme "timesys" then ["-timesys"]
  else [].

(** The behaviour flags, each appended when its entry is true. *)
Definition flag_opts (values : gmap string pyval) (fmt : pyval) : list string :=
  (if truthy (dict_get_default values "showstatus" (VBool true))
   then ["-showstatus"] else []) ++
  (if truthy (dict_get_default values "rewind" (VBool false))
   then ["-rewind"] else []) ++
  (if truthy (dict_get_default values "noavc" (VBool false))
   then ["-noavc"] else []) ++
  (if truthy (dict_get_default values "recordonly" (VBool false))
   then ["-recordonly"] else []) ++
  (if truthy (dict_get_default values "opendml" (VBool false)) && eq_str fmt "dv2"
   then ["-opendml"] else []).

Section Builder.
Context {I : Interp}.

(** ["-opt", str(n)]. *)
Definition opt_int (name : string) (n : Z) : result (list string) :=
  s ← str_of_int n; Ok [name; s].

(** [str(values.get(k) or "").strip()]. *)
Definition stripped (values : gmap string pyval) (k : string) : result string :=
  s ← py_str (py_or (dict_get values k) (VStr "")); Ok (strip s).

(** Every [if c: cmd += tokens] of the source reads here as appending
    [tokens] or nothing. *)
Definition build_dvgrab_cmd (env : Env) (values : gmap string pyval)
    (capture_dir : Path) : result (list string) :=
  path_pref ← dict_index values "dvgrab_path";
  dvgrab_bin ← which_dvgrab env path_pref;
  let cmd := [dvgrab_bin] in
  (* Format mapping *)
  fmt ← dict_index values "format";
  let cmd := cmd ++ format_opt fmt in
  (* Filename scheme *)
  scheme ← dict_index values "filename_scheme";
  let cmd := cmd ++ scheme_opt scheme in
  (* Splitting *)
  size_mb ← py_int (py_or (dict_get values "size_mb") (VInt 0));
  size_opt ← (if (size_mb >=? 0)%Z then opt_int "-size" size_mb else Ok []);
  let cmd := cmd ++ size_opt in
  frames_per_file ← py_int (py_or (dict_get values "frames_per_file") (VInt 0));
  frames_opt ← (if (frames_per_file >? 0)%Z
                then opt_int "-frames" frames_per_file else Ok []);
  let cmd := cmd ++ frames_opt in
  autosplit_opt ←
    (if truthy (dict_get values "autosplit") then
       secs ← py_int (py_or (dict_get values "autosplit_seconds") (VInt 0));
       if (secs >? 0)%Z
       then (s ← str_of_int secs; Ok ["-autosplit=" +:+ s])
       else Ok ["-autosplit"]
     else Ok []);
  let cmd := cmd ++ autosplit_opt in
  csize_mb ← py_int (py_or (dict_get values "csize_mb") (VInt 0));
  csize_opt ← (if (csize_mb >? 0)%Z then opt_int "-csize" csize_mb else Ok []);
  let cmd := cmd ++ csize_opt in
  cmincutsize_mb ← py_int (py_or (dict_get values "cmincutsize_mb") (VInt 0));
  cmin_opt ← (if (cmincutsize_mb >? 0)%Z
              then opt_int "-cmincutsize" cmincutsize_mb else Ok []);
  let cmd := cmd ++ cmin_opt in
  (* Controls & behaviors *)
  let cmd := cmd ++ flag_opts values fmt in
  (* Device routing *)
  card ← stripped values "card";
  let cmd := cmd ++ (if isdigit card then ["-card"; card] else []) in
  channel ← stripped values "channel";
  let cmd := cmd ++ (if isdigit channel then ["-channel"; channel] else []) in
  guid ← stripped values "guid";
  let cmd := cmd ++ (if negb (is_empty guid) then ["-guid"; guid] else []) in
  (* V4L2 (USB DV) path *)
  v4l2_opt ←
    (if truthy (dict_get_default values "use_v4l2" (VBool false)) then
       v4l2_input ← stripped values "v4l2_input";
       Ok ("-v4l2" :: if negb (is_empty v4l2_input)
                      then ["-input"; v4l2_input] else [])
     else Ok []);
  let cmd := cmd ++ v4l2_opt in
  (* Time limiting across splits *)
  dur ← stripped values "duration";
  let cmd := cmd ++ (if negb (is_empty dur) then ["-duration"; dur] else []) in
  (* Decimation *)
  every ← py_int (py_or (dict_get values "every_nth") (VInt 1));
  every_opt ← (if negb (every =? 0)%Z && (every >? 1)%Z
               then opt_int "-every" every else Ok []);
  let cmd := cmd ++ every_opt in
  (* Base name inside capture_dir *)
  let base := path_str (path_join capture_dir "clip-") in
  Ok (cmd ++ [base]).
End Builder.

(** ** Gathering the configuration from the widgets *)

(** The Tk variables read by [App._gather_values]. *)
Record Widgets : Type := mkWidgets {
  output_dir_var : string;
  subprefix_var : string;
  scheme_var : string;
  format_var : string;
  showstatus_var : bool;
  autosplit_var : bool;
  autosplit_secs_var : string;
  size_mb_var : string;
  csize_mb_var : string;
  cmincutsize_mb_var : string;
  rewind_var : bool;
  noavc_var : bool;
  recordonly_var : bool;
  opendml_var : bool;
  frames_per_file_var : string;
  every_nth_var : string;
  card_var : string;
  channel_var : string;
  guid_var : string;
  duration_var : string;
  use_v4l2_var : bool;
  v4l2_input_var : string;
  dvgrab_path_var : string
}.

(** [fmt_map.get(fmt_label, "dv2")]. *)
Definition fmt_map (label : string) : string :=
  if String.eqb label "dv2 (AVI Type 2)" then "dv2"
  else if String.eqb label "dv1 (AVI Type 1)" then "dv1"
  else if String.eqb label "raw (.dv)" then "raw"
  else if String.eqb label "qt (QuickTime)" then "qt"
  else if String.eqb label "mov (QuickTime)" then "mov"
  else if String.eqb label "avi" then "avi"
  else if String.eqb label "mpeg2 (HDV .m2t)" then "mpeg2"
  else "dv2".

(** [s or d] for strings. *)
Definition str_or (s d : string) : string := if is_empty s then d else s.

Section Config.
Context {I : Interp}.

Definition _as_int (s : string) (default : Z) : Z :=
  match int_of_str (strip s) with
  | Ok v => v
  | Raise _ => default
  end.

Definition _gather_values (w : Widgets) : gmap string pyval :=
  let fmt := fmt_map (format_var w) in
  <["output_dir" := VStr (strip (output_dir_var w))]>
  (<["subfolder_prefix" := VStr (str_or (strip (subprefix_var w)) "tape")]>
  (<["filename_scheme" := VStr (scheme_var w)]>
  (<["format" := VStr fmt]>
  (<["showstatus" := VBool (showstatus_var w)]>
  (<["autosplit" := VBool (autosplit_var w)]>
  (<["autosplit_seconds" := VInt (_as_int (autosplit_secs_var w) 0)]>
  (<["size_mb" := VInt (_as_int (size_mb_var w) 0)]>
  (<["csize_mb" := VInt (_as_int (csize_mb_var w) 0)]>
  (<["cmincutsize_mb" := VInt (_as_int (cmincutsize_mb_var w) 0)]>
  (<["rewind" := VBool (rewind_var w)]>
  (<["noavc" := VBool (noavc_var w)]>
  (<["recordonly" := VBool (recordonly_var w)]>
  (<["opendml" := VBool (opendml_var w)]>
  (<["frames_per_file" := VInt (_as_int (frames_per_file_var w) 0)]>
  (<["every_nth" := VInt (_as_int (every_nth_var w) 1)]>
  (<["card" := VStr (strip (card_var w))]>
  (<["channel" := VStr (strip (channel_var w))]>
  (<["guid" := VStr (strip (guid_var w))]>
  (<["duration" := VStr (strip (duration_var w))]>
  (<["use_v4l2" := VBool (use_v4l2_var w)]>
  (<["v4l2_input" := VStr (strip (v4l2_input_var w))]>
  (<["dvgrab_path" := VStr (str_or (strip (dvgrab_path_var w)) "dvgrab")]>
   ∅)))))))))))))))))))))).
End Config.

(** ** Directory allocation *)

(** What iterating [base_dir.iterdir()] yields: an entry with its name and
    the answer of [is_dir()], or an exception raised at that point of the
    loop. *)
Inductive dirent : Type :=
  | Entry (name : string) (is_dir : bool)
  | ScanRaises.

(** Drop one final line feed, if there is one. *)
Fixpoint chomp (s : string) : string :=
  match s with
  | EmptyString => EmptyString
  | String c EmptyString => if Ascii.eqb c LF then EmptyString else s
  | String c r => String c (chomp r)
  end.

(** [pat.match(name)] for [pat = ^{re.escape(prefix)}(\d+)$], answering
    group 1.  Without [re.MULTILINE], [$] matches at the end of the string
    and just before a line feed that ends it. *)
Definition pat_match (prefix name : string) : option string :=
  match after_prefix prefix name with
  | Some rest =>
      let ds := chomp rest in
      if negb (is_empty ds) && forallb_str is_decimal ds then Some ds else None
  | None => None
  end.

(** The file system, the PATH search and process creation, as answered
    during one call. *)
Inductive spawn : Type :=
  | Spawned (pid : Z)
  | SpawnRaises (cause : string).

Record World : Type := mkWorld {
  env : Env;
  expanduser : Path -> Path;         (* p.expanduser() *)
  resolve : Path -> Path;            (* p.resolve() *)
  mkdir : Path -> bool;              (* p.mkdir(parents=True, exist_ok=True) succeeds *)
  iterdir : Path -> list dirent;     (* the iteration of p.iterdir() *)
  save_ok : bool;                    (* save_config succeeds *)
  popen : list string -> spawn       (* subprocess.Popen(cmd, ...) *)
}.

Section Allocation.
Context {I : Interp}.

(** The loop over [base_dir.iterdir()], inside [try ... except Exception:
    pass]: an exception ends the loop and keeps [max_found]. *)
Fixpoint scan (prefix : string) (entries : list dirent) (max_found : Z) : Z :=
  match entries with
  | [] => max_found
  | ScanRaises :: _ => max_found
  | Entry name is_dir :: rest =>
      if is_dir then
        match pat_match prefix name with
        | Some ds =>
            match int_of_str ds with
            | Ok n => scan prefix rest (if (n >? max_found)%Z then n else max_found)
            | Raise _ => max_found
            end
        | None => scan prefix rest max_found
        end
      else scan prefix rest max_found
  end.

(** [find_next_subfolder(base_dir, prefix, cfg)]; [cfg] is the mapping
    [cfg["next_index_by_dir"]], returned as the call leaves it. *)
Definition find_next_subfolder (w : World) (base_dir : Path) (prefix : string)
    (cfg : gmap string Z) : result (Path * gmap string Z) :=
  let base_dir := resolve w (expanduser w base_dir) in
  _ ← (if mkdir w base_dir then Ok tt else Raise OSError);
  let next_map := cfg in
  let key := path_str base_dir in
  let start_idx := default 1%Z (next_map !! key) in
  let max_found := scan prefix (iterdir w base_dir) 0 in
  let idx := Z.max start_idx (max_found + 1) in
  sidx ← str_of_int idx;
  let candidate := path_join base_dir (prefix +:+ sidx) in
  Ok (candidate, <[key := idx + 1]> next_map).
End Allocation.

(** ** The application state and what a call does to the outside *)

(** What a method does to the outside, in the order it does it.  A dialog
    is recorded by its title; a log line that shows a command is recorded
    by the command. *)
Inductive effect : Type :=
  | Mkdir (p : Path)                 (* a directory now exists at p *)
  | SaveConfig (c : gmap string Z)   (* config.json holds this mapping *)
  | Popen (cmd : list string)        (* a process was started *)
  | PopenFailed (cmd : list string)  (* subprocess.Popen raised *)
  | ShowInfo (title : string)
  | ShowError (title : string)
  | Clipboard (cmd : list string)
  | LogText (text : string)
  | LogCommand (cmd : list string).

(** The fields of [App] the methods below use; [cfg] is
    [self.cfg["next_index_by_dir"]], an absent entry being the empty
    mapping. *)
Record State : Type := mkState {
  cfg : gmap string Z;
  proc : option Z;
  last_folder : option Path;
  stop_requested : bool;
  capturing : bool;                  (* Start disabled, Stop enabled *)
  vars : Widgets;
  trace : list effect
}.

Definition M (A : Type) : Type := State -> result A * State.

#[global] Instance M_ret : MRet M := fun A a st => (Ok a, st).
#[global] Instance M_bind : MBind M := fun A B f m st =>
  match m st with
  | (Ok a, st') => f a st'
  | (Raise e, st') => (Raise e, st')
  end.

Definition get : M State := fun st => (Ok st, st).
Definition lift {A} (r : result A) : M A := fun st => (r, st).
Definition emit (e : effect) : M unit := fun st =>
  (Ok tt, mkState (cfg st) (proc st) (last_folder st) (stop_requested st)
            (capturing st) (vars st) (trace st ++ [e])).
Definition set_cfg (c : gmap string Z) : M unit := fun st =>
  (Ok tt, mkState c (proc st) (last_folder st) (stop_requested st)
            (capturing st) (vars st) (trace st)).
Definition set_proc (p : option Z) : M unit := fun st =>
  (Ok tt, mkState (cfg st) p (last_folder st) (stop_requested st)
            (capturing st) (vars st) (trace st)).
Definition set_last_folder (p : Path) : M unit := fun st =>
  (Ok tt, mkState (cfg st) (proc st) (Some p) (stop_requested st)
            (capturing st) (vars st) (trace st)).
Definition set_stop_requested (b : bool) : M unit := fun st =>
  (Ok tt, mkState (cfg st) (proc st) (last_folder st) b
            (capturing st) (vars st) (trace st)).
Definition set_capturing (b : bool) : M unit := fun st =>
  (Ok tt, mkState (cfg st) (proc st) (last_folder st) (stop_requested st)
            b (vars st) (trace st)).

(** [try: m except Exception: h]. *)
Definition try_except {A} (m : M A) (h : exn -> M A) : M A := fun st =>
  match m st with
  | (Ok a, st') => (Ok a, st')
  | (Raise e, st') => h e st'
  end.

(** A string where the source needs one ([Path(v)], [re.escape(v)]). *)
Definition as_str (v : pyval) : result string :=
  match v with
  | VStr s => Ok s
  | _ => Raise TypeError
  end.

Section Session.
Context {I : Interp}.

(** [p.mkdir(parents=True, exist_ok=True)]. *)
Definition do_mkdir (w : World) (p : Path) : M unit :=
  if mkdir w p then emit (Mkdir p) else lift (Raise OSError).

(** [save_config(self.cfg)]. *)
Definition save_config (w : World) : M unit :=
  st ← get;
  if save_ok w then emit (SaveConfig (cfg st)) else lift (Raise OSError).

(** [find_next_subfolder(base_dir, prefix, self.cfg)]: the directory it
    makes and the entry it stores in [self.cfg]. *)
Definition allocate (w : World) (base_dir : Path) (prefix : string) : M Path :=
  st ← get;
  let base := resolve w (expanduser w base_dir) in
  _ ← (if mkdir w base then emit (Mkdir base) else mret tt);
  '(candidate, next_map) ← lift (find_next_subfolder w base_dir prefix (cfg st));
  _ ← set_cfg next_map;
  mret candidate.

Definition copy_command (w : World) : M unit :=
  try_except
    (st ← get;
     let vals := _gather_values (vars st) in
     out ← lift (dict_index vals "output_dir" ≫= as_str);
     let base_dir := expanduser w (path_of_str out) in
     prefix ← lift (dict_index vals "subfolder_prefix" ≫= as_str);
     subdir ← allocate w base_dir prefix;
     cmd ← lift (build_dvgrab_cmd (env w) vals subdir);
     _ ← emit (Clipboard cmd);
     emit (LogCommand cmd))
    (fun _ => emit (ShowError "Error")).

Definition start_capture (w : World) : M unit :=
  st ← get;
  match proc st with
  | Some _ => emit (ShowInfo "Capture")
  | None =>
      let vals := _gather_values (vars st) in
      dv_path ← lift (dict_index vals "dvgrab_path" ≫= which_dvgrab (env w));
      (* not shutil.which(dv_path) and not Path(dv_path).exists() *)
      missing ← lift (if is_empty (found_or (which (env w) dv_path) "")
                      then there ← path_exists (env w) dv_path; Ok (negb there)
                      else Ok false);
      if (missing : bool)
      then emit (ShowError "dvgrab not found")
      else
        out ← lift (dict_index vals "output_dir" ≫= as_str);
        let base_dir := expanduser w (path_of_str out) in
        if negb (path_truthy base_dir) then emit (ShowError "Output")
        else
          (* Allocate subfolder and persist next index *)
          prefix ← lift (dict_index vals "subfolder_prefix" ≫= as_str);
          subdir ← allocate w base_dir prefix;
          _ ← do_mkdir w subdir;
          _ ← set_last_folder subdir;
          _ ← save_config w;
          cmd ← lift (build_dvgrab_cmd (env w) vals subdir);
          _ ← emit (LogText ("Starting capture in: " +:+ path_str subdir));
          _ ← emit (LogCommand cmd);
          _ ← set_stop_requested false;
          match popen w cmd with
          | SpawnRaises _ =>
              _ ← emit (PopenFailed cmd);
              _ ← set_proc None;
              emit (ShowError "Start failed")
          | Spawned pid =>
              _ ← emit (Popen cmd);
              _ ← set_proc (Some pid);
              set_capturing true
          end
  end.
End Session.

(** ** Log lines *)

(** The body of the loop of [App._read_stream] for one [line]: what it puts
    on the queue. *)
Definition read_line (line : string) : list string :=
  if contains CR line then
    map rstrip (filter (fun p => Is_true (negb (is_empty (strip p)))) (split CR line))
  else [rstrip line].

(** [App._read_stream(stream, tag)]: [stream] is [None] or the answers of
    [stream.readline()], the loop ending at the first empty one. *)
Fixpoint read_lines (lines : list string) : list string :=
  match lines with
  | [] => []
  | line :: rest => if is_empty line then [] else read_line line ++ read_lines rest
  end.

Definition _read_stream (stream : option (list string)) (tag : option string)
    : list (string * option string) :=
  match stream with
  | None => []
  | Some lines => map (fun l => (l, tag)) (read_lines lines)
  end.

(** [subprocess.Popen(..., text=True)] opens the streams with universal
    newlines: a carriage return, alone or before a line feed, reads as a
    line feed. *)
Fixpoint universal_newlines (raw : string) : string :=
  match raw with
  | EmptyString => EmptyString
  | String c r =>
      if Ascii.eqb c CR then
        match r with
        | String d r' =>
            if Ascii.eqb d LF then String LF (universal_newlines r')
            else String LF (universal_newlines r)
        | EmptyString => String LF EmptyString
        end
      else String c (universal_newlines r)
  end.

(** The answers of [readline()] on a text: each line with the line feed
    that ends it. *)
Fixpoint readlines (text : string) : list string :=
  match text with
  | EmptyString => []
  | String c r =>
      if Ascii.eqb c LF then String c EmptyString :: readlines r
      else match readlines r with
           | [] => [String c EmptyString]
           | l :: ls => String c l :: ls
           end
  end.

(** ** Definitions used to state the properties *)

(** The value of a run of decimal digits, read left to right from [acc]. *)
Fixpoint value_of (acc : Z) (s : string) : Z :=
  match s with
  | EmptyString => acc
  | String c r => value_of (acc * 10 + digit_value c) r
  end.

(** [a] immediately followed by [b] in [l]. *)
Definition adjacent (a b : string) (l : list string) : Prop :=
  exists l1 l2, l = l1 ++ a :: b :: l2.

(** The numeric entries of [_gather_values]: key, widget and default. *)
Definition numeric_fields : list (string * (Widgets -> string) * Z) :=
  [ ("autosplit_seconds", autosplit_secs_var, 0%Z);
    ("size_mb", size_mb_var, 0%Z);
    ("csize_mb", csize_mb_var, 0%Z);
    ("cmincutsize_mb", cmincutsize_mb_var, 0%Z);
    ("frames_per_file", frames_per_file_var, 0%Z);
    ("every_nth", every_nth_var, 1%Z) ].

(** The effects added between two states. *)
Definition new_effects (st st' : State) : list effect :=
  drop (length (trace st)) (trace st').

Section Rules.
Context {I : Interp}.

(** The argument vector after the executable: the option rules in the
    order [build_dvgrab_cmd] applies them. *)
Definition build_args (values : gmap string pyval) (capture_dir : Path)
    : result (list string) :=
  fmt ← dict_index values "format";
  scheme ← dict_index values "filename_scheme";
  size_mb ← py_int (py_or (dict_get values "size_mb") (VInt 0));
  size_opt ← (if (size_mb >=? 0)%Z then opt_int "-size" size_mb else Ok []);
  frames_per_file ← py_int (py_or (dict_get values "frames_per_file") (VInt 0));
  frames_opt ← (if (frames_per_file >? 0)%Z
                then opt_int "-frames" frames_per_file else Ok []);
  autosplit_opt ←
    (if truthy (dict_get values "autosplit") then
       secs ← py_int (py_or (dict_get values "autosplit_seconds") (VInt 0));
       if (secs >? 0)%Z
       then (s ← str_of_int secs; Ok ["-autosplit=" +:+ s])
       else Ok ["-autosplit"]
     else Ok []);
  csize_mb ← py_int (py_or (dict_get values "csize_mb") (VInt 0));
  csize_opt ← (if (csize_mb >? 0)%Z then opt_int "-csize" csize_mb else Ok []);
  cmincutsize_mb ← py_int (py_or (dict_get values "cmincutsize_mb") (VInt 0));
  cmin_opt ← (if (cmincutsize_mb >? 0)%Z
              then opt_int "-cmincutsize" cmincutsize_mb else Ok []);
  card ← stripped values "card";
  channel ← stripped values "channel";
  guid ← stripped values "guid";
  v4l2_opt ←
    (if truthy (dict_get_default values "use_v4l2" (VBool false)) then
       v4l2_input ← stripped values "v4l2_input";
       Ok ("-v4l2" :: if negb (is_empty v4l2_input)
                      then ["-input"; v4l2_input] else [])
     else Ok []);
  dur ← stripped values "duration";
  every ← py_int (py_or (dict_get values "every_nth") (VInt 1));
  every_opt ← (if negb (every =? 0)%Z && (every >? 1)%Z
               then opt_int "-every" every else Ok []);
  Ok (format_opt fmt ++ scheme_opt scheme ++ size_opt ++ frames_opt
      ++ autosplit_opt ++ csize_opt ++ cmin_opt ++ flag_opts values fmt
      ++ (if isdigit card then ["-card"; card] else [])
      ++ (if isdigit channel then ["-channel"; channel] else [])
      ++ (if negb (is_empty guid) then ["-guid"; guid] else [])
      ++ v4l2_opt
      ++ (if negb (is_empty dur) then ["-duration"; dur] else [])
      ++ every_opt
      ++ [path_str (path_join capture_dir "clip-")]).
End Rules.

(** The name [which_dvgrab] looks for on the PATH when it gets that far. *)
Definition searched (path_pref : pyval) : string :=
  match path_pref with
  | VStr s => if is_empty s then "dvgrab" else s
  | _ => "dvgrab"
  end.

(** The target directory joined with the stem ["clip-"], written out: the
    text of the directory, a separator unless the directory is the empty
    path or a root, then the stem. *)
Definition clip_prefix (d : Path) : string :=
  match parts d with
  | [] => root d +:+ "clip-"
  | _ :: _ => path_str d +:+ "/clip-"
  end.

(** ** The allocation rule in the words of the specification *)

(** A name that is exactly [prefix] followed by one or more decimal digits,
    and the number the digits write. *)
Definition child_index (prefix name : string) : option Z :=
  match after_prefix prefix name with
  | Some ds =>
      if negb (is_empty ds) && forallb_str is_decimal ds
      then Some (value_of 0 ds) else None
  | None => None
  end.

(** The greatest such number among [names], 0 if there is none. *)
Definition max_existing (prefix : string) (names : list string) : Z :=
  foldr (fun name m =>
           match child_index prefix name with
           | Some n => Z.max n m
           | None => m
           end) 0 names.

(** A listing that completes: the children of the directory, each with the
    answer of [is_dir()]. *)
Definition listing (children : list (string * bool)) : list dirent :=
  map (fun c => Entry c.1 c.2) children.

Definition names (children : list (string * bool)) : list string :=
  map fst children.

Definition directories (children : list (string * bool)) : list string :=
  map fst (filter (fun c => Is_true c.2) children).

(** ** The log lines in the words of the specification *)

(** The fragments between carriage returns that are not empty. *)
Definition nonempty_fragments (line : string) : list string :=
  filter (fun p => Is_true (negb (is_empty p))) (split CR line).

(** ** Scenarios *)

(** The widgets as [load_config]'s defaults fill them, for a user whose
    home is [/home/user]. *)
Definition default_widgets : Widgets := {|
  output_dir_var := "/home/user/Videos";
  subprefix_var := "tape";
  scheme_var := "timestamp";
  format_var := "dv2 (AVI Type 2)";
  showstatus_var := true;
  autosplit_var := false;
  autosplit_secs_var := "0";
  size_mb_var := "0";
  csize_mb_var := "0";
  cmincutsize_mb_var := "0";
  rewind_var := false;
  noavc_var := false;
  recordonly_var := false;
  opendml_var := true;
  frames_per_file_var := "0";
  every_nth_var := "1";
  card_var := "";
  channel_var := "";
  guid_var := "";
  duration_var := "";
  use_v4l2_var := false;
  v4l2_input_var := "/dev/video0";
  dvgrab_path_var := "dvgrab"
|}.

Definition with_size_mb (s : string) (w : Widgets) : Widgets :=
  mkWidgets (output_dir_var w) (subprefix_var w) (scheme_var w) (format_var w)
    (showstatus_var w) (autosplit_var w) (autosplit_secs_var w) s
    (csize_mb_var w) (cmincutsize_mb_var w) (rewind_var w) (noavc_var w)
    (recordonly_var w) (opendml_var w) (frames_per_file_var w) (every_nth_var w)
    (card_var w) (channel_var w) (guid_var w) (duration_var w) (use_v4l2_var w)
    (v4l2_input_var w) (dvgrab_path_var w).

Definition with_output_dir (s : string) (w : Widgets) : Widgets :=
  mkWidgets s (subprefix_var w) (scheme_var w) (format_var w)
    (showstatus_var w) (autosplit_var w) (autosplit_secs_var w) (size_mb_var w)
    (csize_mb_var w) (cmincutsize_mb_var w) (rewind_var w) (noavc_var w)
    (recordonly_var w) (opendml_var w) (frames_per_file_var w) (every_nth_var w)
    (card_var w) (channel_var w) (guid_var w) (duration_var w) (use_v4l2_var w)
    (v4l2_input_var w) (dvgrab_path_var w).


Definition with_dvgrab_path (s : string) (w : Widgets) : Widgets :=
  mkWidgets (output_dir_var w) (subprefix_var w) (scheme_var w) (format_var w)
    (showstatus_var w) (autosplit_var w) (autosplit_secs_var w) (size_mb_var w)
    (csize_mb_var w) (cmincutsize_mb_var w) (rewind_var w) (noavc_var w)
    (recordonly_var w) (opendml_var w) (frames_per_file_var w) (every_nth_var w)
    (card_var w) (channel_var w) (guid_var w) (duration_var w) (use_v4l2_var w)
    (v4l2_input_var w) s.

(** dvgrab installed as [/usr/bin/dvgrab], and not installed at all. *)
Definition env_installed : Env := {|
  path_exists := fun s => Ok (String.eqb s "/usr/bin/dvgrab");
  which := fun s =>
    if String.eqb s "dvgrab" || String.eqb s "/usr/bin/dvgrab"
    then Some "/usr/bin/dvgrab" else None
|}.

Definition env_missing : Env := {|
  path_exists := fun _ => Ok false;
  which := fun _ => None
|}.

(** A file system that cannot look at the configured path: the existence
    test raises. *)
Definition env_unreadable : Env := {|
  path_exists := fun _ => Raise OSError;
  which := fun _ => None
|}.

(** Only some other program is installed. *)
Definition env_other : Env := {|
  path_exists := fun s => Ok (String.eqb s "/usr/bin/kdialog");
  which := fun s =>
    if String.eqb s "kdialog" then Some "/usr/bin/kdialog" else None
|}.

(** A session of [user], started in [/home/user]: every directory can be
    made, every directory lists [children], the settings can be saved and
    [subprocess.Popen] answers [sp]. *)
Definition home_world (e : Env) (children : list (string * bool)) (sp : spawn)
    : World := {|
  env := e;
  expanduser := fun p => p;
  resolve := fun p =>
    if is_empty (root p) then mkPath "/" (["home"; "user"] ++ parts p) else p;
  mkdir := fun _ => true;
  iterdir := fun _ => listing children;
  save_ok := true;
  popen := fun _ => sp
|}.


(** The session of [user] when [Videos] may be entered but not listed:
    its listing raises at once.  It holds the directory [tape1], which
    holds a clip. *)
Definition unlisted_world : World := {|
  env := env_installed;
  expanduser := fun p => p;
  resolve := fun p => p;
  mkdir := fun _ => true;
  iterdir := fun p =>
    if String.eqb (path_str p) "/home/user/Videos" then [ScanRaises]
    else if String.eqb (path_str p) "/home/user/Videos/tape1"
         then listing [("clip-2024.01.01_10-00-00.avi", false)]
    else [];
  save_ok := true;
  popen := fun _ => SpawnRaises "Permission denied"
|}.

(** The application right after launch, no capture running and no index
    stored. *)
Definition idle (w : Widgets) : State :=
  mkState ∅ None None false false w [].

Definition videos : string := "/home/user/Videos".

(** Progress updates as dvgrab prints them, each ended by a carriage
    return; and the same with an empty update between the two. *)
Definition progress_chunk : string :=
  "Capturing... 00:01" +:+ String CR ("Capturing... 00:02" +:+ String CR "").

Definition gap_chunk : string :=
  "Capturing... 00:01" +:+ String CR (String CR
    ("Capturing... 00:02" +:+ String CR "")).

(** ** The rest of the application

    The methods of [App] that the capture session does not go through:
    the configuration shown in the widgets ([load_config]'s defaults,
    [App._load_from_config], [App.save_settings]), the warning of
    [App.__init__], the controls of a running capture ([App.stop_capture],
    [App.on_close], [App.open_last_folder]) and the log widget ([App._log],
    [App._schedule_log_pump]). *)

(** [self.cfg]: the entries the widgets are filled from, and the entry
    ["next_index_by_dir"], a mapping of its own (empty when absent). *)
Record Config : Type := mkConfig {
  entries : gmap string pyval;
  next_index_by_dir : gmap string Z
}.

(** What the desktop answers, beside the file system of [World]. *)
Record Desktop : Type := mkDesktop {
  world : World;
  home : Path;                  (* Path.home() *)
  tk_text : pyval -> string;    (* the text of a StringVar after set(v), for a
                                   v that is no str *)
  askyesno : bool;              (* the answer to "Stop and quit?" *)
  killpg : Z -> bool;           (* os.killpg(os.getpgid(pid), SIGINT) goes
                                   through *)
  terminate : Z -> bool         (* proc.terminate() goes through *)
}.

(** *** [load_config]'s defaults and [App._load_from_config] *)

Definition DEFAULT_OUTPUT (d : Desktop) : string :=
  path_str (path_join (home d) "Videos").

(** [shutil.which("dvgrab") or "dvgrab"]. *)
Definition dvgrab_or_name (d : Desktop) : string :=
  found_or (which (env (world d)) "dvgrab") "dvgrab".

(** The entries of the dict [load_config] makes when it reads no file. *)
Definition default_config (d : Desktop) : gmap string pyval :=
  <["output_dir" := VStr (DEFAULT_OUTPUT d)]>
  (<["subfolder_prefix" := VStr "tape"]>
  (<["filename_scheme" := VStr "timestamp"]>
  (<["format" := VStr "dv2"]>
  (<["showstatus" := VBool true]>
  (<["autosplit" := VBool false]>
  (<["autosplit_seconds" := VInt 0]>
  (<["size_mb" := VInt 0]>
  (<["csize_mb" := VInt 0]>
  (<["cmincutsize_mb" := VInt 0]>
  (<["rewind" := VBool false]>
  (<["noavc" := VBool false]>
  (<["recordonly" := VBool false]>
  (<["opendml" := VBool true]>
  (<["frames_per_file" := VInt 0]>
  (<["every_nth" := VInt 1]>
  (<["card" := VStr ""]>
  (<["channel" := VStr ""]>
  (<["guid" := VStr ""]>
  (<["duration" := VStr ""]>
  (<["use_v4l2" := VBool false]>
  (<["v4l2_input" := VStr "/dev/video0"]>
  (<["dvgrab_path" := VStr (dvgrab_or_name d)]>
   ∅)))))))))))))))))))))).

(** The label of the format selector: [{...}.get(fmt, "dv2 (AVI Type 2)")]. *)
Definition label_of (fmt : pyval) : string :=
  match fmt with
  | VStr f =>
      if String.eqb f "dv2" then "dv2 (AVI Type 2)"
      else if String.eqb f "dv1" then "dv1 (AVI Type 1)"
      else if String.eqb f "raw" then "raw (.dv)"
      else if String.eqb f "qt" then "qt (QuickTime)"
      else if String.eqb f "mov" then "mov (QuickTime)"
      else if String.eqb f "avi" then "avi"
      else if String.eqb f "mpeg2" then "mpeg2 (HDV .m2t)"
      else "dv2 (AVI Type 2)"
  | _ => "dv2 (AVI Type 2)"
  end.

(** What [var.get()] answers after [var.set(v)] on a [StringVar]. *)
Definition var_text (d : Desktop) (v : pyval) : string :=
  match v with
  | VStr s => s
  | _ => tk_text d v
  end.

Section Loading.
Context {I : Interp}.

(** [App._load_from_config], on the entries [c] of [self.cfg]: the
    variables as it leaves them. *)
Definition _load_from_config (d : Desktop) (c : gmap string pyval)
    : result Widgets :=
  let output_dir :=
    var_text d (dict_get_default c "output_dir" (VStr (DEFAULT_OUTPUT d))) in
  let subprefix :=
    var_text d (dict_get_default c "subfolder_prefix" (VStr "tape")) in
  let scheme :=
    var_text d (dict_get_default c "filename_scheme" (VStr "timestamp")) in
  (* format mapping to user label *)
  let fmt := dict_get_default c "format" (VStr "dv2") in
  let label := label_of fmt in
  let showstatus := truthy (dict_get_default c "showstatus" (VBool true)) in
  let autosplit := truthy (dict_get_default c "autosplit" (VBool false)) in
  autosplit_secs ← py_str (dict_get_default c "autosplit_seconds" (VInt 0));
  size_mb ← py_str (dict_get_default c "size_mb" (VInt 0));
  csize_mb ← py_str (dict_get_default c "csize_mb" (VInt 0));
  cmincutsize_mb ← py_str (dict_get_default c "cmincutsize_mb" (VInt 0));
  let rewind := truthy (dict_get_default c "rewind" (VBool false)) in
  let noavc := truthy (dict_get_default c "noavc" (VBool false)) in
  let recordonly := truthy (dict_get_default c "recordonly" (VBool false)) in
  let opendml := truthy (dict_get_default c "opendml" (VBool true)) in
  frames_per_file ← py_str (dict_get_default c "frames_per_file" (VInt 0));
  every_nth ← py_str (dict_get_default c "every_nth" (VInt 1));
  card ← py_str (dict_get_default c "card" (VStr ""));
  channel ← py_str (dict_get_default c "channel" (VStr ""));
  guid ← py_str (dict_get_default c "guid" (VStr ""));
  duration ← py_str (dict_get_default c "duration" (VStr ""));
  let use_v4l2 := truthy (dict_get_default c "use_v4l2" (VBool false)) in
  v4l2_input ← py_str (dict_get_default c "v4l2_input" (VStr "/dev/video0"));
  dvgrab_path ← py_str (dict_get_default c "dvgrab_path" (VStr (dvgrab_or_name d)));
  Ok {| output_dir_var := output_dir;
        subprefix_var := subprefix;
        scheme_var := scheme;
        format_var := label;
        showstatus_var := showstatus;
        autosplit_var := autosplit;
        autosplit_secs_var := autosplit_secs;
        size_mb_var := size_mb;
        csize_mb_var := csize_mb;
        cmincutsize_mb_var := cmincutsize_mb;
        rewind_var := rewind;
        noavc_var := noavc;
        recordonly_var := recordonly;
        opendml_var := opendml;
        frames_per_file_var := frames_per_file;
        every_nth_var := every_nth;
        card_var := card;
        channel_var := channel;
        guid_var := guid;
        duration_var := duration;
        use_v4l2_var := use_v4l2;
        v4l2_input_var := v4l2_input;
        dvgrab_path_var := dvgrab_path |}.
End Loading.

(** *** The application as a whole *)

(** What the methods below do to the outside, in order.  [Did] is an effect
    of the kind the capture session has. *)
Inductive action : Type :=
  | Did (e : effect)
  | Saved (c : Config)                  (* config.json holds this configuration *)
  | Logged (text : string) (is_err : bool)  (* self._log(text, is_err) *)
  | Interrupted (pid : Z)               (* SIGINT reached the process group *)
  | Terminated (pid : Z)                (* proc.terminate() went through *)
  | Waited (pid : Z)                    (* proc.wait(timeout=3) was called *)
  | AskedQuit                           (* the "Stop and quit?" question *)
  | Destroyed.                          (* self.master.destroy() *)

(** [session] holds the fields of [App] the capture session uses, its [cfg]
    being [self.cfg["next_index_by_dir"]]; [settings] are the other entries
    of [self.cfg]. *)
Record App : Type := mkApp {
  session : State;
  settings : gmap string pyval;
  actions : list action
}.

Definition Act (A : Type) : Type := App -> result A * App.

#[global] Instance Act_ret : MRet Act := fun A x a => (Ok x, a).
#[global] Instance Act_bind : MBind Act := fun A B f m a =>
  match m a with
  | (Ok x, a') => f x a'
  | (Raise e, a') => (Raise e, a')
  end.

Definition get_app : Act App := fun a => (Ok a, a).
Definition answer {A} (r : result A) : Act A := fun a => (r, a).
Definition note (x : action) : Act unit := fun a =>
  (Ok tt, mkApp (session a) (settings a) (actions a ++ [x])).
Definition set_session (s : State) : Act unit := fun a =>
  (Ok tt, mkApp s (settings a) (actions a)).
Definition set_settings (c : gmap string pyval) : Act unit := fun a =>
  (Ok tt, mkApp (session a) c (actions a)).

(** [try: m except Exception: h]. *)
Definition attempt {A} (m : Act A) (h : exn -> Act A) : Act A := fun a =>
  match m a with
  | (Ok x, a') => (Ok x, a')
  | (Raise e, a') => h e a'
  end.

(** [self.stop_requested = b]. *)
Definition with_stop_requested (b : bool) (s : State) : State :=
  mkState (cfg s) (proc s) (last_folder s) b (capturing s) (vars s) (trace s).

(** [save_config(self.cfg)], the whole configuration. *)
Definition save_cfg (d : Desktop) : Act unit :=
  a ← get_app;
  if save_ok (world d)
  then note (Saved (mkConfig (settings a) (cfg (session a))))
  else answer (Raise OSError).

Section Controls.
Context {I : Interp}.

(** [self.cfg.update(vals)] leaves the entry ["next_index_by_dir"] as it
    is: [vals] holds the mapping [self.cfg] has. *)
Definition save_settings (d : Desktop) : Act unit :=
  a ← get_app;
  let vals := _gather_values (vars (session a)) in
  _ ← set_settings (vals ∪ settings a);
  _ ← save_cfg d;
  note (Logged "Settings saved." false).

Definition open_last_folder (d : Desktop) : Act unit :=
  a ← get_app;
  match last_folder (session a) with
  | None => note (Did (ShowInfo "Open Folder"))
  | Some p =>
      (* not self.last_folder or not Path(self.last_folder).exists() *)
      absent ← answer (if negb (path_truthy p) then Ok true
                       else there ← path_exists (env (world d)) (path_str p);
                            Ok (negb there));
      if (absent : bool) then note (Did (ShowInfo "Open Folder"))
      else
        let cmd := ["xdg-open"; path_str p] in
        match popen (world d) cmd with
        | Spawned _ => note (Did (Popen cmd))
        | SpawnRaises _ =>
            _ ← note (Did (PopenFailed cmd));
            note (Did (ShowError "Open Folder"))
        end
  end.

Definition stop_capture (d : Desktop) : Act unit :=
  a ← get_app;
  match proc (session a) with
  | None => mret tt
  | Some pid =>
      _ ← set_session (with_stop_requested true (session a));
      _ ← attempt
            (if killpg d pid then note (Interrupted pid)
             else answer (Raise OSError))
            (fun _ =>
               attempt
                 (if terminate d pid then note (Terminated pid)
                  else answer (Raise OSError))
                 (fun _ => mret tt));
      note (Logged "Stop signal sent." false)
  end.

Definition on_close (d : Desktop) : Act unit :=
  _ ← attempt (save_settings d) (fun _ => mret tt);
  a ← get_app;
  match proc (session a) with
  | Some pid =>
      _ ← note AskedQuit;
      if negb (askyesno d) then mret tt
      else
        _ ← stop_capture d;
        (* Best-effort wait a moment for process to exit *)
        _ ← attempt (note (Waited pid)) (fun _ => mret tt);
        note Destroyed
  | None => note Destroyed
  end.
End Controls.

(** *** The warning of [App.__init__] *)

(** The test [App.__init__] makes once the widgets are filled: whether the
    warning "dvgrab not found" is shown. *)
Definition startup_warning (d : Desktop) (c : gmap string pyval) : result bool :=
  let e := env (world d) in
  dv_path ← which_dvgrab e (dict_get_default c "dvgrab_path" (VStr "dvgrab"));
  (* not shutil.which(dv_path) and not Path(dv_path).exists() *)
  if is_empty (found_or (which e dv_path) "")
  then there ← path_exists e dv_path; Ok (negb there)
  else Ok false.

(** *** The log widget *)

Definition LOG_LINES_MAX : nat := 5000.

(** The text widget holds lines, each ended by a line feed and carrying the
    tag it was inserted with; the line number of the index ['end-1c'] is one
    more than their number.  [ts] is the time of day as [strftime] writes
    it. *)
Definition _log (ts text : string) (is_err : bool) (log : list (string * bool))
    : list (string * bool) :=
  let log :=
    log ++ map (fun l => (l, is_err)) (split LF ("[" +:+ ts +:+ "] " +:+ text)) in
  (* Trim *)
  if (LOG_LINES_MAX <? S (length log))%nat then tail log else log.



(** *** Definitions used to state the properties *)

(** The entries [build_dvgrab_cmd] reads with [values.get], each with the
    value an absent entry stands for. *)
Definition optional_defaults : list (string * pyval) :=
  [ ("size_mb", VInt 0); ("frames_per_file", VInt 0);
    ("autosplit", VBool false); ("autosplit_seconds", VInt 0);
    ("csize_mb", VInt 0); ("cmincutsize_mb", VInt 0);
    ("showstatus", VBool true); ("rewind", VBool false);
    ("noavc", VBool false); ("recordonly", VBool false);
    ("opendml", VBool false); ("card", VStr ""); ("channel", VStr "");
    ("guid", VStr ""); ("use_v4l2", VBool false); ("v4l2_input", VStr "");
    ("duration", VStr ""); ("every_nth", VInt 1) ].

(** The actions added between two states of the application. *)
Definition new_actions (a a' : App) : list action :=
  drop (length (actions a)) (actions a').

(** The last [n] elements of a list. *)
Definition latest {A} (n : nat) (l : list A) : list A :=
  drop (length l - n) l.

(** The line [_log] writes for a text that holds no line feed. *)
Definition log_line (ts text : string) (is_err : bool) : string * bool :=
  ("[" +:+ ts +:+ "] " +:+ text, is_err).




(** ** More scenarios *)


(** The session of [user] when the configuration file cannot be written. *)
Definition unsaved_world : World := {|
  env := env_installed;
  expanduser := fun p => p;
  resolve := fun p => p;
  mkdir := fun _ => true;
  iterdir := fun _ => [];
  save_ok := false;
  popen := fun _ => Spawned 4242
|}.

(** dvgrab is installed and the folder of the first capture exists. *)
Definition env_captured : Env := {|
  path_exists := fun s =>
    Ok (String.eqb s "/usr/bin/dvgrab" || String.eqb s "/home/user/Videos/tape1");
  which := which env_installed
|}.

(** The desktop of [user]: the user answers [yes] to the question, the
    process group can be interrupted when [signals] holds, and no process
    can be terminated. *)
Definition desk (w : World) (yes signals : bool) : Desktop := {|
  world := w;
  home := mkPath "/" ["home"; "user"];
  tk_text := fun _ => "";
  askyesno := yes;
  killpg := fun _ => signals;
  terminate := fun _ => false
|}.

(** The application while the capture [pid] runs in [folder], and before
    any capture. *)
Definition running (pid : Z) (folder : Path) : App :=
  mkApp (mkState ∅ (Some pid) (Some folder) false true default_widgets []) ∅ [].

Definition launched : App := mkApp (idle default_widgets) ∅ [].

(** A log that holds [n] lines. *)
Definition full_log (n : nat) : list (string * bool) :=
  replicate n ("[12:00:00] Capturing", false).


(** ** Proof automation *)

Create Rewrite HintDb gather.

(** One step of a computation in [result]: its first action returns or
    raises. *)
Ltac bind_step :=
  match goal with
  | |- context [@mbind result _ _ _ _ ?r] =>
      destruct r; cbn [mbind result_bind]; [|reflexivity]
  end.

(** The actions of a computation in [result] that is known to return. *)
Ltac bind_inv H :=
  repeat match type of H with
  | context [@mbind result _ _ _ _ ?r] =>
      destruct r eqn:?; cbn [mbind result_bind] in H; [|discriminate H]
  end.

(** An entry of the gathered configuration. *)
Ltac gather_lookup :=
  unfold _gather_values;
  repeat (rewrite lookup_insert_ne by discriminate);
  apply lookup_insert_eq.

(** Unfold a run of the monad [M] in [H] and split it at every test,
    innermost test first. *)
Ltac unfold_run H :=
  cbv [mbind M_bind get lift emit set_cfg set_proc set_last_folder
       set_stop_requested set_capturing allocate do_mkdir save_config
       try_except mret M_ret dict_index] in H;
  autorewrite with gather in H;
  cbv [result_bind as_str] in H.

Ltac split_run H :=
  repeat (first
            [ match type of H with
              | context [if ?c then _ else _] => destruct c eqn:?
              end
            | match type of H with
              | context [match ?x with _ => _ end] =>
                  lazymatch x with
                  | context [match _ with _ => _ end] => fail
                  | _ => destruct x eqn:?
                  end
              end ];
          cbv beta iota zeta in H;
          cbn [cfg proc last_folder stop_requested capturing vars trace] in H).

(** The effects added by a finished run, read off its final trace. *)
Ltac effects_in Hin :=
  unfold new_effects in Hin; cbn [trace] in Hin;
  rewrite <- ?app_assoc in Hin;
  first [rewrite drop_app_length in Hin | rewrite drop_all in Hin].

Ltac no_such_effect Hin :=
  effects_in Hin;
  repeat (apply elem_of_cons in Hin as [Hin|Hin]; [discriminate Hin|]);
  by apply elem_of_nil in Hin.

(** Membership in a list that is written out. *)
Ltac in_list := rewrite !elem_of_cons; repeat first [left; reflexivity | right].

(** Unfold a run of the monad [Act] in [H]. *)
Ltac unfold_act H :=
  cbv [mbind Act_bind get_app answer note set_session set_settings attempt
       save_cfg mret Act_ret] in H;
  cbn [session settings actions] in H.

(** * Properties *)

(** ** Strings *)

Lemma is_empty_false (s : string) : is_empty s = false <-> s <> EmptyString.
Proof. destruct s; simpl; split; congruence. Qed.

Lemma decimal_not_space (c : ascii) : is_decimal c = true -> is_space c = false.
Proof.
  unfold is_decimal, is_space. cbv zeta. generalize (code c). intros n H.
  apply andb_true_iff in H as [H1 H2].
  apply N.leb_le in H1. apply N.leb_le in H2.
  repeat match goal with
  | |- context [(?a <=? ?b)%N] =>
      destruct (N.leb_spec a b); try lia
  | |- context [(?a =? ?b)%N] =>
      destruct (N.eqb_spec a b); try lia
  end; reflexivity.
Qed.

Lemma decimal_not_int_space (c : ascii) :
  is_decimal c = true -> is_int_space c = false.
Proof.
  unfold is_decimal, is_int_space. cbv zeta. generalize (code c). intros n H.
  apply andb_true_iff in H as [H1 H2].
  apply N.leb_le in H1. apply N.leb_le in H2.
  repeat match goal with
  | |- context [(?a <=? ?b)%N] =>
      destruct (N.leb_spec a b); try lia
  | |- context [(?a =? ?b)%N] =>
      destruct (N.eqb_spec a b); try lia
  end; reflexivity.
Qed.

Lemma rstrip_by_idem (p : ascii -> bool) (s : string) :
  rstrip_by p (rstrip_by p s) = rstrip_by p s.
Proof.
  induction s as [|c r IH]; simpl; [done|].
  destruct (is_empty (rstrip_by p r) && p c) eqn:E; simpl; [done|].
  by rewrite IH, E.
Qed.

Lemma lstrip_by_fix (p : ascii -> bool) (s : string) :
  (forall c r, s = String c r -> p c = false) -> lstrip_by p s = s.
Proof.
  destruct s as [|c r]; simpl; [done|].
  intros H. by rewrite (H c r eq_refl).
Qed.

(** Characters of a class [q] disjoint from [p] are never dropped. *)
Lemma rstrip_by_keeps (p q : ascii -> bool) (s : string) :
  (forall c, q c = true -> p c = false) ->
  forallb_str q s = true -> rstrip_by p s = s.
Proof.
  intros Hpq. induction s as [|c r IH]; simpl; [done|].
  intros [Hc Hr]%andb_true_iff.
  by rewrite (IH Hr), (Hpq c Hc), andb_false_r.
Qed.

Lemma lstrip_by_keeps (p q : ascii -> bool) (s : string) :
  (forall c, q c = true -> p c = false) ->
  forallb_str q s = true -> lstrip_by p s = s.
Proof.
  intros Hpq H. apply lstrip_by_fix. intros c r ->.
  simpl in H. apply andb_true_iff in H as [H _]. by apply Hpq.
Qed.

Lemma strip_decimal (s : string) :
  forallb_str is_decimal s = true -> strip s = s.
Proof.
  intros H. unfold strip, rstrip, lstrip.
  rewrite (lstrip_by_keeps _ _ _ decimal_not_space H).
  apply (rstrip_by_keeps _ _ _ decimal_not_space H).
Qed.

Lemma int_strip_decimal (s : string) :
  forallb_str is_decimal s = true ->
  rstrip_by is_int_space (lstrip_by is_int_space s) = s.
Proof.
  intros H.
  rewrite (lstrip_by_keeps _ _ _ decimal_not_int_space H).
  apply (rstrip_by_keeps _ _ _ decimal_not_int_space H).
Qed.

(** ** Integers and their decimal text *)

Lemma digit_char_ok (d : Z) :
  0 <= d < 10 ->
  is_decimal (digit_char d) = true /\ digit_value (digit_char d) = d.
Proof.
  intros H.
  assert (d = 0 \/ d = 1 \/ d = 2 \/ d = 3 \/ d = 4 \/ d = 5 \/ d = 6
          \/ d = 7 \/ d = 8 \/ d = 9) as Hd by lia.
  repeat destruct Hd as [->|Hd]; try subst d; by vm_compute.
Qed.

Lemma digit_value_range (c : ascii) :
  is_decimal c = true -> 0 <= digit_value c < 10.
Proof.
  unfold is_decimal, digit_value. cbv zeta.
  intros [H1 H2]%andb_true_iff.
  apply N.leb_le in H1. apply N.leb_le in H2. lia.
Qed.

Lemma decimal_not_sign (c : ascii) (r : string) (A : Type) (x y z : A) :
  is_decimal c = true ->
  match String c r with
  | String "-" _ => x
  | String "+" _ => y
  | _ => z
  end = z.
Proof.
  destruct c as [[] [] [] [] [] [] [] []]; try discriminate; reflexivity.
Qed.

Section IntegerFacts.
Context {I : Interp}.

Lemma too_many_digits_mono (m n : nat) :
  (m <= n)%nat -> too_many_digits n = false -> too_many_digits m = false.
Proof.
  unfold too_many_digits. intros Hmn H.
  destruct (Nat.ltb_spec 640 m); simpl; [|done].
  destruct (Nat.ltb_spec 640 n); simpl in H; [|lia].
  destruct (0 <? max_str_digits)%nat; simpl in *; [|done].
  apply Nat.ltb_ge in H. apply Nat.ltb_ge. lia.
Qed.

Lemma too_many_digits_one : too_many_digits 1 = false.
Proof. reflexivity. Qed.

Lemma parse_digits_decimal (ds : string) (acc : Z) (cnt : nat) :
  forallb_str is_decimal ds = true ->
  parse_digits acc cnt ds = Some (value_of acc ds, (cnt + String.length ds)%nat).
Proof.
  revert acc cnt. induction ds as [|c r IH]; intros acc cnt; simpl.
  - intros _. by rewrite Nat.add_0_r.
  - intros [Hc Hr]%andb_true_iff. rewrite Hc, (IH _ _ Hr).
    do 2 f_equal. lia.
Qed.

Lemma parse_literal_decimal (ds : string) :
  ds <> EmptyString -> forallb_str is_decimal ds = true ->
  parse_literal ds = Some (value_of 0 ds, String.length ds).
Proof.
  intros Hne Hds. destruct ds as [|c r]; [done|].
  unfold parse_literal.
  pose proof Hds as Hds'. simpl in Hds'.
  apply andb_true_iff in Hds' as [-> _].
  by rewrite parse_digits_decimal.
Qed.

(** A parsed literal of [n] digits is below [10 ^ n]. *)
Lemma parse_digits_bound (k : nat) :
  forall (s : string) (acc : Z) (cnt : nat) (v : Z) (n : nat),
  (String.length s <= k)%nat ->
  parse_digits acc cnt s = Some (v, n) ->
  0 <= acc < 10 ^ Z.of_nat cnt ->
  0 <= v < 10 ^ Z.of_nat n /\ (cnt <= n)%nat.
Proof.
  assert (forall (a d : Z) (c : nat),
    0 <= a < 10 ^ Z.of_nat c -> 0 <= d < 10 ->
    0 <= a * 10 + d < 10 ^ Z.of_nat (S c)) as Hstep.
  { intros a d c Ha Hd. rewrite Nat2Z.inj_succ, Z.pow_succ_r by lia. lia. }
  induction k as [|k IH]; intros s acc cnt v n Hlen Hp Hacc.
  - destruct s; simpl in Hlen; [|lia]. simpl in Hp.
    injection Hp as <- <-. split; [done|lia].
  - destruct s as [|c r]; simpl in Hp.
    { injection Hp as <- <-. split; [done|lia]. }
    simpl in Hlen.
    destruct (is_decimal c) eqn:Hc.
    { apply IH in Hp; [|lia|].
      - destruct Hp; split; [done|lia].
      - apply Hstep; [done|by apply digit_value_range]. }
    destruct (Ascii.eqb c "_"); [|done].
    destruct r as [|d r']; [done|].
    destruct (is_decimal d) eqn:Hd; [|done]. simpl in Hlen.
    apply IH in Hp; [|lia|].
    + destruct Hp; split; [done|lia].
    + apply Hstep; [done|by apply digit_value_range].
Qed.

Lemma parse_literal_bound (s : string) (v : Z) (n : nat) :
  parse_literal s = Some (v, n) -> 0 <= v < 10 ^ Z.of_nat n /\ (1 <= n)%nat.
Proof.
  unfold parse_literal. destruct s as [|c r]; [done|].
  destruct (is_decimal c) eqn:Hc; [|done].
  simpl. rewrite Hc. intros Hp.
  apply (parse_digits_bound (String.length r)) in Hp; [done|lia|].
  pose proof (digit_value_range c Hc). simpl. lia.
Qed.

Lemma digits_go_value (f : nat) :
  forall (n : Z) (rest : string),
  0 <= n < 2 ^ Z.of_nat f ->
  value_of 0 (digits_go f n rest) = value_of n rest.
Proof.
  induction f as [|f IH]; intros n rest Hn; simpl.
  - simpl in Hn. by replace n with 0 by lia.
  - rewrite Nat2Z.inj_succ, Z.pow_succ_r in Hn by lia.
    destruct (Z.ltb_spec n 10) as [Hlt|Hge].
    + simpl.
      destruct (digit_char_ok (n mod 10)) as [_ ->]; [by apply Z.mod_pos_bound|].
      rewrite Z.mod_small by lia. done.
    + rewrite IH.
      * simpl.
        destruct (digit_char_ok (n mod 10)) as [_ ->]; [by apply Z.mod_pos_bound|].
        f_equal. pose proof (Z.div_mod n 10). lia.
      * split; [apply Z.div_pos; lia|].
        apply Z.div_lt_upper_bound; lia.
Qed.

Lemma digits_go_decimal (f : nat) :
  forall (n : Z) (rest : string),
  forallb_str is_decimal rest = true ->
  forallb_str is_decimal (digits_go f n rest) = true.
Proof.
  induction f as [|f IH]; intros n rest Hr; simpl; [done|].
  assert (forallb_str is_decimal (String (digit_char (n mod 10)) rest) = true)
    as Hd.
  { simpl. rewrite Hr.
    destruct (digit_char_ok (n mod 10)) as [-> _]; [by apply Z.mod_pos_bound|done]. }
  destruct (n <? 10)%Z; [done|by apply IH].
Qed.

Lemma digits_go_nonempty (f : nat) :
  forall (n : Z) (c : ascii) (rest : string),
  digits_go f n (String c rest) <> EmptyString.
Proof.
  induction f as [|f IH]; intros n c rest; simpl; [done|].
  destruct (n <? 10)%Z; [done|apply IH].
Qed.

Lemma digits_go_length (f : nat) :
  forall (n : Z) (k : nat) (rest : string),
  0 <= n < 10 ^ Z.of_nat k -> (1 <= k)%nat ->
  (String.length (digits_go f n rest) <= k + String.length rest)%nat.
Proof.
  induction f as [|f IH]; intros n k rest Hn Hk; simpl; [lia|].
  destruct (Z.ltb_spec n 10) as [Hlt|Hge]; [simpl; lia|].
  destruct k as [|[|k]]; [lia|simpl in Hn; lia|].
  etrans; [apply (IH _ (S k))|simpl; lia]; [|lia].
  rewrite (Nat2Z.inj_succ (S k)), Z.pow_succ_r in Hn by lia.
  split; [apply Z.div_pos; lia|].
  apply Z.div_lt_upper_bound; lia.
Qed.

Lemma digits_spec (n : Z) :
  0 <= n ->
  digits n <> EmptyString /\ forallb_str is_decimal (digits n) = true
  /\ value_of 0 (digits n) = n.
Proof.
  intros Hn. unfold digits. split; [|split].
  - simpl. destruct (n <? 10)%Z; [done|apply digits_go_nonempty].
  - by apply digits_go_decimal.
  - rewrite digits_go_value; [done|].
    split; [done|].
    rewrite Nat2Z.inj_succ, Z2Nat.id by apply Z.log2_nonneg.
    destruct (Z.eq_dec n 0) as [->|Hne]; [done|].
    apply Z.log2_spec. lia.
Qed.

(** [int(str(z)) == z]: the text [str] produces reads back as [z]. *)
Lemma int_of_str_of_int (z : Z) (s : string) :
  str_of_int z = Ok s -> int_of_str s = Ok z.
Proof.
  unfold str_of_int.
  destruct (digits_spec (Z.abs z)) as (Hne & Hdec & Hval); [lia|].
  destruct (too_many_digits (String.length (digits (Z.abs z)))) eqn:Hlim;
    [done|].
  intros [= <-]. unfold int_of_str.
  destruct (Z.ltb_spec z 0) as [Hneg|Hpos].
  - assert (rstrip_by is_int_space
              (lstrip_by is_int_space (String "-" (digits (Z.abs z))))
            = String "-" (digits (Z.abs z))) as ->.
    { simpl.
      rewrite (rstrip_by_keeps _ _ _ decimal_not_int_space Hdec).
      by rewrite andb_false_r. }
    rewrite (parse_literal_decimal _ Hne Hdec), Hlim, Hval. f_equal. lia.
  - rewrite (int_strip_decimal _ Hdec).
    destruct (digits (Z.abs z)) as [|c r] eqn:Hd; [done|].
    pose proof Hdec as Hc. simpl in Hc. apply andb_true_iff in Hc as [Hc _].
    rewrite (decimal_not_sign c r _ _ _ _ Hc).
    rewrite (parse_literal_decimal _ Hne Hdec), Hlim, Hval. f_equal. lia.
Qed.

(** An integer that [int] produced can be printed by [str]. *)
Lemma str_of_int_of_str (s : string) (z : Z) :
  int_of_str s = Ok z -> exists t, str_of_int z = Ok t.
Proof.
  unfold int_of_str.
  set (t := rstrip_by is_int_space (lstrip_by is_int_space s)).
  destruct (match t with
            | String "-" r => (true, r)
            | String "+" r => (false, r)
            | _ => (false, t)
            end) as [neg body].
  destruct (parse_literal body) as [[v cnt]|] eqn:Hp; [|done].
  destruct (too_many_digits cnt) eqn:Hlim; [done|].
  intros [= <-].
  apply parse_literal_bound in Hp as [Hv Hcnt].
  assert (Z.abs (if neg then - v else v) = v) as Habs by (destruct neg; lia).
  unfold str_of_int. rewrite Habs.
  rewrite (too_many_digits_mono _ cnt); [by eexists| |done].
  unfold digits.
  etrans; [by apply (digits_go_length _ v cnt)|simpl; lia].
Qed.

Lemma str_of_int_small (z : Z) :
  0 <= z < 10 -> exists t, str_of_int z = Ok t.
Proof.
  intros Hz. unfold str_of_int.
  rewrite (too_many_digits_mono _ 1); [by eexists| |apply too_many_digits_one].
  unfold digits.
  etrans; [apply (digits_go_length _ (Z.abs z) 1); simpl; lia|simpl; lia].
Qed.
End IntegerFacts.

(** ** The argument vector *)

Section BuilderFacts.
Context {I : Interp}.

(** [build_dvgrab_cmd] is the executable found by [which_dvgrab],
    followed by the tokens of the option rules. *)
Lemma build_dvgrab_cmd_factor (e : Env) (v : gmap string pyval) (d : Path) :
  build_dvgrab_cmd e v d =
  (path_pref ← dict_index v "dvgrab_path";
   dvgrab_bin ← which_dvgrab e path_pref;
   args ← build_args v d;
   Ok (dvgrab_bin :: args)).
Proof.
  unfold build_dvgrab_cmd, build_args.
  do 20 bind_step.
  cbv zeta. f_equal. rewrite <- !app_assoc. reflexivity.
Qed.
End BuilderFacts.

(** ** The gathered configuration *)

Section GatherFacts.
Context {I : Interp}.

Lemma gather_output_dir (w : Widgets) :
  _gather_values w !! "output_dir" = Some (VStr (strip (output_dir_var w))).
Proof. gather_lookup. Qed.

Lemma gather_subfolder_prefix (w : Widgets) :
  _gather_values w !! "subfolder_prefix" = Some (VStr (str_or (strip (subprefix_var w)) "tape")).
Proof. gather_lookup. Qed.

Lemma gather_filename_scheme (w : Widgets) :
  _gather_values w !! "filename_scheme" = Some (VStr (scheme_var w)).
Proof. gather_lookup. Qed.

Lemma gather_format (w : Widgets) :
  _gather_values w !! "format" = Some (VStr (fmt_map (format_var w))).
Proof. gather_lookup. Qed.

Lemma gather_autosplit (w : Widgets) :
  _gather_values w !! "autosplit" = Some (VBool (autosplit_var w)).
Proof. gather_lookup. Qed.

Lemma gather_autosplit_seconds (w : Widgets) :
  _gather_values w !! "autosplit_seconds" = Some (VInt (_as_int (autosplit_secs_var w) 0)).
Proof. gather_lookup. Qed.

Lemma gather_size_mb (w : Widgets) :
  _gather_values w !! "size_mb" = Some (VInt (_as_int (size_mb_var w) 0)).
Proof. gather_lookup. Qed.

Lemma gather_csize_mb (w : Widgets) :
  _gather_values w !! "csize_mb" = Some (VInt (_as_int (csize_mb_var w) 0)).
Proof. gather_lookup. Qed.

Lemma gather_cmincutsize_mb (w : Widgets) :
  _gather_values w !! "cmincutsize_mb" = Some (VInt (_as_int (cmincutsize_mb_var w) 0)).
Proof. gather_lookup. Qed.

Lemma gather_frames_per_file (w : Widgets) :
  _gather_values w !! "frames_per_file" = Some (VInt (_as_int (frames_per_file_var w) 0)).
Proof. gather_lookup. Qed.

Lemma gather_every_nth (w : Widgets) :
  _gather_values w !! "every_nth" = Some (VInt (_as_int (every_nth_var w) 1)).
Proof. gather_lookup. Qed.

Lemma gather_card (w : Widgets) :
  _gather_values w !! "card" = Some (VStr (strip (card_var w))).
Proof. gather_lookup. Qed.

Lemma gather_channel (w : Widgets) :
  _gather_values w !! "channel" = Some (VStr (strip (channel_var w))).
Proof. gather_lookup. Qed.

Lemma gather_guid (w : Widgets) :
  _gather_values w !! "guid" = Some (VStr (strip (guid_var w))).
Proof. gather_lookup. Qed.

Lemma gather_duration (w : Widgets) :
  _gather_values w !! "duration" = Some (VStr (strip (duration_var w))).
Proof. gather_lookup. Qed.

Lemma gather_use_v4l2 (w : Widgets) :
  _gather_values w !! "use_v4l2" = Some (VBool (use_v4l2_var w)).
Proof. gather_lookup. Qed.

Lemma gather_v4l2_input (w : Widgets) :
  _gather_values w !! "v4l2_input" = Some (VStr (strip (v4l2_input_var w))).
Proof. gather_lookup. Qed.

Lemma gather_dvgrab_path (w : Widgets) :
  _gather_values w !! "dvgrab_path" = Some (VStr (str_or (strip (dvgrab_path_var w)) "dvgrab")).
Proof. gather_lookup. Qed.
End GatherFacts.

#[global] Hint Rewrite
  @gather_output_dir
  @gather_subfolder_prefix
  @gather_filename_scheme
  @gather_format
  @gather_autosplit
  @gather_autosplit_seconds
  @gather_size_mb
  @gather_csize_mb
  @gather_cmincutsize_mb
  @gather_frames_per_file
  @gather_every_nth
  @gather_card
  @gather_channel
  @gather_guid
  @gather_duration
  @gather_use_v4l2
  @gather_v4l2_input
  @gather_dvgrab_path
  : gather.

Section BuilderTotal.
Context {I : Interp}.

Lemma py_int_or (x d : Z) :
  py_int (py_or (VInt x) (VInt d)) = Ok (if (x =? 0)%Z then d else x).
Proof. unfold py_or. simpl. by destruct (x =? 0)%Z. Qed.

Lemma stripped_str (v : gmap string pyval) (k s : string) :
  v !! k = Some (VStr s) -> stripped v k = Ok (strip s).
Proof.
  intros H. unfold stripped, dict_get, py_or. rewrite H. simpl.
  by destruct s.
Qed.

Lemma _as_int_printable (s : string) (d : Z) :
  0 <= d < 10 -> exists t, str_of_int (_as_int s d) = Ok t.
Proof.
  intros Hd. unfold _as_int.
  destruct (int_of_str (strip s)) eqn:E.
  - by apply str_of_int_of_str in E.
  - by apply str_of_int_small.
Qed.

Lemma opt_int_gathered (name s : string) (d d' : Z) :
  0 <= d < 10 -> 0 <= d' < 10 ->
  exists l, opt_int name (if (_as_int s d =? 0)%Z then d' else _as_int s d) = Ok l.
Proof.
  intros Hd Hd'. unfold opt_int.
  destruct (_as_int s d =? 0)%Z.
  - destruct (str_of_int_small d' Hd') as [t ->]. by eexists.
  - destruct (_as_int_printable s d Hd) as [t ->]. by eexists.
Qed.

(** On a configuration gathered from the widgets no conversion raises:
    the option rules always produce their tokens. *)
Lemma build_args_gathered (w : Widgets) (d : Path) :
  exists args, build_args (_gather_values w) d = Ok args.
Proof.
  unfold build_args, dict_index, dict_get, dict_get_default.
  autorewrite with gather. cbn [from_option id mbind result_bind].
  rewrite !py_int_or. cbn [mbind result_bind].
  rewrite !(stripped_str _ _ _ (gather_card w)),
          !(stripped_str _ _ _ (gather_channel w)),
          !(stripped_str _ _ _ (gather_guid w)),
          !(stripped_str _ _ _ (gather_duration w)),
          !(stripped_str _ _ _ (gather_v4l2_input w)).
  destruct (opt_int_gathered "-size" (size_mb_var w) 0 0) as [l1 E1]; [lia..|].
  destruct (opt_int_gathered "-frames" (frames_per_file_var w) 0 0)
    as [l2 E2]; [lia..|].
  destruct (opt_int_gathered "-csize" (csize_mb_var w) 0 0) as [l3 E3]; [lia..|].
  destruct (opt_int_gathered "-cmincutsize" (cmincutsize_mb_var w) 0 0)
    as [l4 E4]; [lia..|].
  destruct (opt_int_gathered "-every" (every_nth_var w) 1 1) as [l5 E5]; [lia..|].
  destruct (opt_int_gathered "-autosplit=" (autosplit_secs_var w) 0 0)
    as [l6 E6]; [lia..|].
  unfold opt_int in E6.
  destruct (str_of_int (if (_as_int (autosplit_secs_var w) 0 =? 0)%Z then 0
                        else _as_int (autosplit_secs_var w) 0)) as [t6|] eqn:E6';
    [clear E6|done].
  rewrite E1, E2, E3, E4, E5.
  repeat match goal with
  | |- context [if ?c then _ else _] => destruct c
  end; cbn [mbind result_bind]; rewrite ?E6'; cbn [mbind result_bind];
    by eexists.
Qed.

(** On a string [which_dvgrab] returns whenever the existence test
    answers, and raises what the test raises. *)
Lemma which_dvgrab_str (e : Env) (s : string) :
  is_ok (path_exists e s) = true -> exists bin, which_dvgrab e (VStr s) = Ok bin.
Proof.
  unfold which_dvgrab. destruct (path_exists e s) as [there|]; [|done].
  intros _. destruct (negb (is_empty s)); cbn [mbind result_bind];
    [destruct (there || contains "/" s)|]; by eexists.
Qed.

Lemma which_dvgrab_exists_raises (e : Env) (s : string) (x : exn) :
  s <> "" -> path_exists e s = Raise x -> which_dvgrab e (VStr s) = Raise x.
Proof.
  intros Hs Hx. unfold which_dvgrab. rewrite Hx.
  by destruct s.
Qed.

(** On a configuration gathered from the widgets the vector is produced
    whenever the existence test of the configured executable answers. *)
Lemma build_dvgrab_cmd_gathered (e : Env) (w : Widgets) (d : Path) :
  is_ok (path_exists e (str_or (strip (dvgrab_path_var w)) "dvgrab")) = true ->
  exists cmd, build_dvgrab_cmd e (_gather_values w) d = Ok cmd.
Proof.
  intros Hex.
  rewrite build_dvgrab_cmd_factor. unfold dict_index.
  rewrite gather_dvgrab_path. cbn [mbind result_bind].
  destruct (which_dvgrab_str e _ Hex) as [bin ->].
  destruct (build_args_gathered w d) as [args ->].
  by eexists.
Qed.
End BuilderTotal.

Section BuilderClaims.
Context {I : Interp}.

Lemma build_dvgrab_cmd_inv (e : Env) (v : gmap string pyval) (d : Path)
    (cmd : list string) :
  build_dvgrab_cmd e v d = Ok cmd ->
  exists path_pref bin args,
    v !! "dvgrab_path" = Some path_pref /\ which_dvgrab e path_pref = Ok bin
    /\ build_args v d = Ok args /\ cmd = bin :: args.
Proof.
  rewrite build_dvgrab_cmd_factor. unfold dict_index.
  destruct (v !! "dvgrab_path") as [pp|]; cbn [mbind result_bind];
    [|discriminate].
  destruct (which_dvgrab e pp) as [bin|] eqn:Hbin; cbn [mbind result_bind];
    [|discriminate].
  destruct (build_args v d) as [args|]; cbn [mbind result_bind];
    [|discriminate].
  intros [= <-]. by exists pp, bin, args.
Qed.

Lemma build_args_last (v : gmap string pyval) (d : Path) (args : list string) :
  build_args v d = Ok args ->
  last args = Some (path_str (path_join d "clip-")).
Proof.
  unfold build_args. intros H. bind_inv H. injection H as <-.
  rewrite !app_assoc. apply last_snoc.
Qed.

Lemma build_args_size (v : gmap string pyval) (d : Path) (args : list string)
    (n : Z) :
  build_args v d = Ok args ->
  py_int (py_or (dict_get v "size_mb") (VInt 0)) = Ok n ->
  0 <= n ->
  exists s, str_of_int n = Ok s /\ adjacent "-size" s args.
Proof.
  unfold build_args. intros H Hn Hpos.
  destruct (dict_index v "format") as [fmt|]; cbn [mbind result_bind] in H;
    [|discriminate H].
  destruct (dict_index v "filename_scheme") as [scheme|];
    cbn [mbind result_bind] in H; [|discriminate H].
  rewrite Hn in H. cbn [mbind result_bind] in H.
  rewrite (proj2 (Z.geb_le n 0) Hpos) in H.
  destruct (opt_int "-size" n) as [size_opt|] eqn:Hopt;
    cbn [mbind result_bind] in H; [|discriminate H].
  unfold opt_int in Hopt.
  destruct (str_of_int n) as [s|]; cbn [mbind result_bind] in Hopt;
    [|discriminate Hopt].
  injection Hopt as <-.
  bind_inv H. injection H as <-.
  exists s. split; [done|].
  exists (format_opt fmt ++ scheme_opt scheme). eexists.
  rewrite <- app_assoc. reflexivity.
Qed.

(** What [which_dvgrab] answers on a value that is not a string does not
    depend on the file system: the existence test is not asked. *)
Lemma which_dvgrab_not_str (e1 e2 : Env) (p : pyval) :
  (forall s, p <> VStr s) ->
  which e1 "dvgrab" = which e2 "dvgrab" ->
  which_dvgrab e1 p = which_dvgrab e2 p.
Proof.
  intros Hp Hw. destruct p as [| b | z | s]; simpl; try by rewrite Hw.
  by destruct (Hp s).
Qed.

(** C2 (as amended): [build_dvgrab_cmd] is a function of the configuration,
    the target directory and the answers of the file system and of the PATH
    search about the configured executable.  (1) Two vectors that are
    returned for the same configuration and directory agree in everything
    after their first element, whatever the answers.  (2) When the two
    environments answer alike whether the configured path exists and what
    the PATH search finds for it, the results are the same.  (3) A
    configured path that contains a separator is used as it is: whenever
    the existence test answers, whatever it answers, the result is the
    same.  (4) The only other thing the answers decide is whether a vector
    is returned at all: the call raises what the existence test raises,
    and (5) it returns in an environment whose test answers whenever it
    returns in another. *)
Theorem build_dvgrab_cmd_env_decides_executable_only
    (e1 e2 : Env) (v : gmap string pyval) (d : Path) :
  (forall cmd1 cmd2 : list string,
     build_dvgrab_cmd e1 v d = Ok cmd1 ->
     build_dvgrab_cmd e2 v d = Ok cmd2 ->
     tail cmd1 = tail cmd2)
  /\ ((forall pp, v !! "dvgrab_path" = Some pp ->
         (forall s, pp = VStr s -> path_exists e1 s = path_exists e2 s)
         /\ which e1 (searched pp) = which e2 (searched pp)) ->
      build_dvgrab_cmd e1 v d = build_dvgrab_cmd e2 v d)
  /\ (forall s, v !! "dvgrab_path" = Some (VStr s) ->
        contains "/" s = true ->
        is_ok (path_exists e1 s) = true ->
        is_ok (path_exists e2 s) = true ->
        build_dvgrab_cmd e1 v d = build_dvgrab_cmd e2 v d)
  /\ (forall (s : string) (x : exn),
        v !! "dvgrab_path" = Some (VStr s) -> s <> "" ->
        path_exists e1 s = Raise x ->
        build_dvgrab_cmd e1 v d = Raise x)
  /\ (forall cmd1 : list string,
        build_dvgrab_cmd e1 v d = Ok cmd1 ->
        (forall s, v !! "dvgrab_path" = Some (VStr s) ->
                   is_ok (path_exists e2 s) = true) ->
        exists cmd2, build_dvgrab_cmd e2 v d = Ok cmd2).
Proof.
  split; [|split; [|split; [|split]]].
  - intros cmd1 cmd2 H1 H2.
    apply build_dvgrab_cmd_inv in H1 as (pp1 & bin1 & args1 & _ & _ & Ha1 & ->).
    apply build_dvgrab_cmd_inv in H2 as (pp2 & bin2 & args2 & _ & _ & Ha2 & ->).
    simpl. congruence.
  - intros Hsame. rewrite !build_dvgrab_cmd_factor. unfold dict_index.
    destruct (v !! "dvgrab_path") as [pp|]; cbn [mbind result_bind]; [|done].
    destruct (Hsame pp eq_refl) as [Hex Hwh].
    assert (which_dvgrab e1 pp = which_dvgrab e2 pp) as ->; [|done].
    destruct pp as [| b | z | s]; simpl in *; try by rewrite Hwh.
    rewrite (Hex s eq_refl).
    destruct (negb (is_empty s)); cbn [mbind result_bind].
    + destruct (path_exists e2 s) as [there|]; cbn [mbind result_bind]; [|done].
      destruct (there || contains "/" s); [done|]. by rewrite Hwh.
    + by rewrite Hwh.
  - intros s Hs Hsep Hok1 Hok2. rewrite !build_dvgrab_cmd_factor.
    unfold dict_index. rewrite Hs. cbn [mbind result_bind].
    assert (which_dvgrab e1 (VStr s) = which_dvgrab e2 (VStr s)) as ->; [|done].
    unfold which_dvgrab. rewrite Hsep.
    destruct (path_exists e1 s) as [t1|]; [|done].
    destruct (path_exists e2 s) as [t2|]; [|done].
    destruct s; [done|]. cbn [is_empty negb mbind result_bind].
    by rewrite !orb_true_r.
  - intros s x Hs Hne Hx. rewrite build_dvgrab_cmd_factor.
    unfold dict_index. rewrite Hs. cbn [mbind result_bind].
    by rewrite (which_dvgrab_exists_raises e1 s x Hne Hx).
  - intros cmd1 H1 Hok.
    apply build_dvgrab_cmd_inv in H1 as (pp & bin & args & Hpp & Hbin & Ha & ->).
    rewrite build_dvgrab_cmd_factor. unfold dict_index.
    rewrite Hpp, Ha. cbn [mbind result_bind].
    assert (exists bin2, which_dvgrab e2 pp = Ok bin2) as [bin2 ->];
      [|by eexists].
    destruct pp as [| b | z | s]; simpl in *; try by eexists.
    + destruct b; [done|by eexists].
    + destruct (z =? 0)%Z; simpl in *; [by eexists|done].
    + by apply which_dvgrab_str, Hok.
Qed.

(** C7 (as amended): whenever the configured maximal file size is not
    negative, the vector holds ["-size"] immediately followed by its
    decimal text, the value 0 included; and on a configuration gathered
    from the widgets the vector is indeed produced, provided the existence
    test of the configured executable answers. *)
Theorem build_dvgrab_cmd_size_when_nonnegative (e : Env) (d : Path) :
  (forall (v : gmap string pyval) (cmd : list string) (n : Z),
     build_dvgrab_cmd e v d = Ok cmd ->
     py_int (py_or (dict_get v "size_mb") (VInt 0)) = Ok n ->
     0 <= n ->
     exists s, str_of_int n = Ok s /\ adjacent "-size" s cmd)
  /\ (forall w : Widgets,
        0 <= _as_int (size_mb_var w) 0 ->
        is_ok (path_exists e (str_or (strip (dvgrab_path_var w)) "dvgrab")) = true ->
        exists cmd s,
          build_dvgrab_cmd e (_gather_values w) d = Ok cmd
          /\ str_of_int (_as_int (size_mb_var w) 0) = Ok s
          /\ adjacent "-size" s cmd).
Proof.
  assert (forall (v : gmap string pyval) (cmd : list string) (n : Z),
     build_dvgrab_cmd e v d = Ok cmd ->
     py_int (py_or (dict_get v "size_mb") (VInt 0)) = Ok n ->
     0 <= n ->
     exists s, str_of_int n = Ok s /\ adjacent "-size" s cmd) as Hgen.
  { intros v cmd n Hb Hn Hpos.
    apply build_dvgrab_cmd_inv in Hb as (pp & bin & args & _ & _ & Ha & ->).
    destruct (build_args_size v d args n Ha Hn Hpos) as (s & Hs & l1 & l2 & ->).
    exists s. split; [done|]. by exists (bin :: l1), l2. }
  split; [exact Hgen|].
  intros w Hpos Hex.
  destruct (build_dvgrab_cmd_gathered e w d Hex) as [cmd Hcmd].
  destruct (Hgen _ cmd (_as_int (size_mb_var w) 0) Hcmd) as (s & Hs & Hadj);
    [|done|by exists cmd, s].
  unfold dict_get. rewrite gather_size_mb. cbn [from_option id].
  rewrite py_int_or. by destruct (Z.eqb_spec (_as_int (size_mb_var w) 0) 0) as [->|].
Qed.

Lemma append_assoc (a b c : string) : (a +:+ b) +:+ c = a +:+ (b +:+ c).
Proof.
  induction a as [|x a IH]; [reflexivity|].
  change (String x ((a +:+ b) +:+ c) = String x (a +:+ (b +:+ c))).
  by rewrite IH.
Qed.

Lemma join_snoc (sep : string) (l : list string) (a x : string) :
  join sep ((a :: l) ++ [x]) = join sep (a :: l) +:+ sep +:+ x.
Proof.
  revert a. induction l as [|b l IH]; intros a; [done|].
  change (join sep ((a :: b :: l) ++ [x]))
    with (a +:+ sep +:+ join sep ((b :: l) ++ [x])).
  change (join sep (a :: b :: l)) with (a +:+ sep +:+ join sep (b :: l)).
  by rewrite IH, !append_assoc.
Qed.

(** The base name [build_dvgrab_cmd] makes with [(capture_dir /
    "clip-").as_posix()] is the text of the directory, a separator and the
    stem. *)
Lemma clip_prefix_spec (d : Path) :
  path_str (path_join d "clip-") = clip_prefix d.
Proof.
  change (path_join d "clip-") with (mkPath (root d) (parts d ++ ["clip-"])).
  unfold clip_prefix, path_str. cbn [root parts].
  destruct (parts d) as [|a l].
  - by destruct (root d).
  - assert (forall r : string,
              r +:+ join "/" ((a :: l) ++ ["clip-"])
              = (r +:+ join "/" (a :: l)) +:+ "/clip-") as Hj.
    { intros r. by rewrite join_snoc, append_assoc. }
    destruct (root d) as [|c r]; [apply (Hj "")|apply Hj].
Qed.

(** C9: the last element of every argument vector that [build_dvgrab_cmd]
    returns is the target directory joined with the stem ["clip-"]: the
    text of the directory, a separator and ["clip-"], whichever options
    precede it; and on a configuration gathered from the widgets such a
    vector is returned whenever the existence test of the configured
    executable answers. *)
Theorem build_dvgrab_cmd_last_is_output_prefix (e : Env) (d : Path) :
  (forall (v : gmap string pyval) (cmd : list string),
     build_dvgrab_cmd e v d = Ok cmd ->
     last cmd = Some (clip_prefix d))
  /\ (forall w : Widgets,
        is_ok (path_exists e (str_or (strip (dvgrab_path_var w)) "dvgrab")) = true ->
        exists cmd,
          build_dvgrab_cmd e (_gather_values w) d = Ok cmd
          /\ last cmd = Some (clip_prefix d)).
Proof.
  assert (forall (v : gmap string pyval) (cmd : list string),
     build_dvgrab_cmd e v d = Ok cmd ->
     last cmd = Some (clip_prefix d)) as Hgen.
  { intros v cmd Hb.
    apply build_dvgrab_cmd_inv in Hb as (pp & bin & args & _ & _ & Ha & ->).
    apply build_args_last in Ha. rewrite clip_prefix_spec in Ha.
    destruct args as [|a args]; [done|]. by rewrite last_cons, Ha. }
  split; [exact Hgen|].
  intros w Hex. destruct (build_dvgrab_cmd_gathered e w d Hex) as [cmd Hcmd].
  exists cmd. eauto.
Qed.
End BuilderClaims.

(** ** Numeric entries of the configuration *)

Section ConfigClaims.
Context {I : Interp}.

(** The text [str] produces for an integer has no white space around
    it. *)
Lemma strip_str_of_int (z : Z) (s : string) :
  str_of_int z = Ok s -> strip s = s.
Proof.
  unfold str_of_int.
  destruct (digits_spec (Z.abs z)) as (_ & Hdec & _); [lia|].
  destruct (too_many_digits _); [done|]. intros [= <-].
  destruct (z <? 0)%Z; [|by apply strip_decimal].
  unfold strip, lstrip, rstrip. simpl.
  rewrite (rstrip_by_keeps _ _ _ decimal_not_space Hdec).
  by rewrite andb_false_r.
Qed.

Lemma gather_numeric (k : string) (var : Widgets -> string) (dflt : Z)
    (w : Widgets) :
  (k, var, dflt) ∈ numeric_fields ->
  _gather_values w !! k = Some (VInt (_as_int (var w) dflt)).
Proof.
  unfold numeric_fields. intros H.
  repeat (apply elem_of_cons in H as [[= -> -> ->]|H];
          [by autorewrite with gather|]).
  by apply elem_of_nil in H.
Qed.

(** C3 (as amended): a numeric entry is replaced by the default of its
    field only when it does not read as an integer; an entry that reads
    as an integer, negative or not, is gathered as that integer. *)
Theorem gather_numeric_passes_integers_through
    (k : string) (var : Widgets -> string) (dflt : Z) (w : Widgets) :
  (k, var, dflt) ∈ numeric_fields ->
  (forall (z : Z) (s : string),
     str_of_int z = Ok s -> var w = s ->
     _gather_values w !! k = Some (VInt z))
  /\ (forall z : Z,
        int_of_str (strip (var w)) = Ok z ->
        _gather_values w !! k = Some (VInt z))
  /\ (forall x : exn,
        int_of_str (strip (var w)) = Raise x ->
        _gather_values w !! k = Some (VInt dflt)).
Proof.
  intros Hk. rewrite (gather_numeric k var dflt w Hk). unfold _as_int.
  split; [|split].
  - intros z s Hs Hv.
    by rewrite Hv, (strip_str_of_int z s Hs), (int_of_str_of_int z s Hs).
  - by intros z ->.
  - by intros x ->.
Qed.
End ConfigClaims.

(** ** Directory allocation *)

Lemma after_prefix_length (p s rest : string) :
  after_prefix p s = Some rest -> (String.length rest <= String.length s)%nat.
Proof.
  revert s. induction p as [|a p IH]; intros [|b s]; simpl; try done.
  - by intros [= <-].
  - by intros [= <-].
  - destruct (Ascii.eqb a b); [|done]. intros H%IH. lia.
Qed.

Lemma chomp_tail (b : ascii) (s : string) :
  chomp (String b s) = String b s -> chomp s = s.
Proof.
  destruct s as [|c s]; [done|].
  change (chomp (String b (String c s))) with (String b (chomp (String c s))).
  by intros [= H].
Qed.

Lemma after_prefix_chomp (p s rest : string) :
  after_prefix p s = Some rest -> chomp s = s -> chomp rest = rest.
Proof.
  revert s. induction p as [|a p IH]; intros [|b s]; simpl; try done.
  - by intros [= <-].
  - by intros [= <-].
  - destruct (Ascii.eqb a b); [|done]. intros H Hc.
    apply (IH _ H). by apply chomp_tail in Hc.
Qed.

Lemma value_of_nonneg (s : string) (acc : Z) :
  forallb_str is_decimal s = true -> 0 <= acc -> 0 <= value_of acc s.
Proof.
  revert acc. induction s as [|c r IH]; intros acc; simpl; [done|].
  intros [Hc Hr]%andb_true_iff Hacc. apply IH; [done|].
  pose proof (digit_value_range c Hc). lia.
Qed.

Lemma child_index_nonneg (prefix name : string) (n : Z) :
  child_index prefix name = Some n -> 0 <= n.
Proof.
  unfold child_index. destruct (after_prefix prefix name) as [ds|]; [|done].
  destruct (negb (is_empty ds)); simpl; [|done].
  destruct (forallb_str is_decimal ds) eqn:E; [|done].
  intros [= <-]. by apply value_of_nonneg.
Qed.

Lemma max_existing_cons (prefix name : string) (l : list string) :
  max_existing prefix (name :: l)
  = match child_index prefix name with
    | Some n => Z.max n (max_existing prefix l)
    | None => max_existing prefix l
    end.
Proof. reflexivity. Qed.

(** [max_existing] is the greatest index among the names, 0 if none has
    one. *)
Lemma max_existing_greatest (prefix : string) (l : list string) :
  (forall name n, name ∈ l -> child_index prefix name = Some n ->
                  n <= max_existing prefix l)
  /\ ((max_existing prefix l = 0 /\
       forall name n, name ∈ l -> child_index prefix name = Some n -> n = 0)
      \/ exists name, name ∈ l
           /\ child_index prefix name = Some (max_existing prefix l)).
Proof.
  induction l as [|a l [IHle IHex]]; simpl.
  - split; [by intros ?? ?%elem_of_nil|].
    left. split; [done|]. by intros ?? ?%elem_of_nil.
  - assert (0 <= max_existing prefix l) as Hnn.
    { destruct IHex as [[-> _]|(name & _ & H)]; [done|].
      by apply child_index_nonneg in H. }
    destruct (child_index prefix a) as [m|] eqn:Ha.
    + pose proof (child_index_nonneg _ _ _ Ha) as Hm. split.
      * intros name n [->|Hin]%elem_of_cons Hn.
        -- rewrite Ha in Hn. injection Hn as <-. lia.
        -- specialize (IHle name n Hin Hn). lia.
      * right.
        destruct (Z.max_spec m (max_existing prefix l)) as [[Hlt ->]|[_ ->]].
        -- destruct IHex as [[H0 Hall]|(name & Hin & Hn)]; [lia|].
           exists name. split; [by right|done].
        -- exists a. split; [by left|done].
    + split.
      * intros name n [->|Hin]%elem_of_cons Hn; [congruence|eauto].
      * destruct IHex as [[H0 Hall]|(name & Hin & Hn)].
        -- left. split; [done|].
           intros name n [->|Hin]%elem_of_cons Hn; [congruence|eauto].
        -- right. exists name. split; [by right|done].
Qed.

Section AllocationFacts.
Context {I : Interp}.

Lemma int_of_str_decimal (ds : string) :
  ds <> EmptyString -> forallb_str is_decimal ds = true ->
  too_many_digits (String.length ds) = false ->
  int_of_str ds = Ok (value_of 0 ds).
Proof.
  intros Hne Hdec Hlim. unfold int_of_str.
  rewrite (int_strip_decimal _ Hdec).
  destruct ds as [|c r]; [done|].
  pose proof Hdec as Hc. simpl in Hc. apply andb_true_iff in Hc as [Hc _].
  rewrite (decimal_not_sign c r _ _ _ _ Hc).
  by rewrite (parse_literal_decimal _ Hne Hdec), Hlim.
Qed.

(** On a name without a final line feed the pattern of the source and
    the wording of the specification agree. *)
Lemma pat_match_child_index (prefix name : string) :
  chomp name = name ->
  too_many_digits (String.length name) = false ->
  match pat_match prefix name with
  | Some ds => int_of_str ds = Ok (value_of 0 ds)
               /\ child_index prefix name = Some (value_of 0 ds)
  | None => child_index prefix name = None
  end.
Proof.
  intros Hc Hlim. unfold pat_match, child_index.
  destruct (after_prefix prefix name) as [rest|] eqn:Hp; [|done].
  rewrite (after_prefix_chomp _ _ _ Hp Hc).
  destruct (is_empty rest) eqn:He; simpl; [done|].
  destruct (forallb_str is_decimal rest) eqn:Hd; [|done].
  split; [|done].
  apply int_of_str_decimal; [by apply is_empty_false|done|].
  apply (too_many_digits_mono _ (String.length name)); [|done].
  by apply after_prefix_length in Hp.
Qed.

(** The scan of a listing that completes finds the greatest index of the
    child directories. *)
Lemma scan_listing (prefix : string) (children : list (string * bool)) :
  Forall (fun c => chomp c.1 = c.1
                   /\ too_many_digits (String.length c.1) = false) children ->
  forall m : Z, 0 <= m ->
  scan prefix (listing children) m
  = Z.max m (max_existing prefix (directories children)).
Proof.
  unfold directories.
  induction 1 as [|[name d] children [Hc Hlim] _ IH]; intros m Hm.
  - simpl. lia.
  - simpl in Hc, Hlim. cbn [listing map scan fst snd].
    destruct d.
    + rewrite filter_cons_True by done.
      cbn [map fst]. rewrite max_existing_cons.
      pose proof (pat_match_child_index prefix name Hc Hlim) as Hpm.
      destruct (pat_match prefix name) as [ds|].
      * destruct Hpm as [-> Hci]. rewrite Hci.
        pose proof (child_index_nonneg _ _ _ Hci).
        fold (listing children). rewrite IH.
        -- destruct (Z.gtb_spec (value_of 0 ds) m); lia.
        -- destruct (Z.gtb_spec (value_of 0 ds) m); lia.
      * rewrite Hpm. fold (listing children). by rewrite (IH m Hm).
    + rewrite filter_cons_False by (simpl; tauto).
      fold (listing children). by apply IH.
Qed.

Lemma max_existing_nonneg (prefix : string) (l : list string) :
  0 <= max_existing prefix l.
Proof.
  destruct (max_existing_greatest prefix l) as [_ [[-> _]|(name & _ & H)]];
    [done|].
  by apply child_index_nonneg in H.
Qed.




(** C4 (as amended): when the base directory can be made, its listing
    completes and no entry is named with a final line feed, allocation
    returns the index [max(persistedNext, maxExisting + 1)], where
    [persistedNext] is 1 without a state entry and [maxExisting] is the
    greatest [N] over the children that are directories and are named
    exactly [prefix] followed by decimal digits (0 if none), and it sets
    the state entry of the base directory to that index plus one. *)
Theorem find_next_subfolder_index (w : World) (base_dir : Path)
    (prefix : string) (c : gmap string Z) (children : list (string * bool))
    (sidx : string) :
  let base := resolve w (expanduser w base_dir) in
  let key := path_str base in
  let idx := Z.max (default 1 (c !! key))
                   (max_existing prefix (directories children) + 1) in
  mkdir w base = true ->
  iterdir w base = listing children ->
  Forall (fun c => chomp c.1 = c.1
                   /\ too_many_digits (String.length c.1) = false) children ->
  str_of_int idx = Ok sidx ->
  find_next_subfolder w base_dir prefix c
  = Ok (path_join base (prefix +:+ sidx), <[key := idx + 1]> c).
Proof.
  intros base key idx Hmk Hls Hch Hs.
  unfold find_next_subfolder. fold base. rewrite Hmk.
  cbn [mbind result_bind]. fold key. rewrite Hls.
  rewrite (scan_listing prefix children Hch 0) by done.
  pose proof (max_existing_nonneg prefix (directories children)) as Hnn.
  rewrite (Z.max_r 0 (max_existing prefix (directories children))) by done.
  fold idx. rewrite Hs.
  reflexivity.
Qed.

(** The scan never lowers the greatest index found. *)
Lemma scan_ge (prefix : string) (l : list dirent) (m : Z) :
  m <= scan prefix l m.
Proof.
  revert m. induction l as [|[name d|] l IH]; intros m; simpl; [lia| |lia].
  destruct d; [|apply IH].
  destruct (pat_match prefix name) as [ds|]; [|apply IH].
  destruct (int_of_str ds) as [n|]; [|lia].
  etrans; [|apply IH]. destruct (Z.gtb_spec n m); lia.
Qed.

(** Whatever the listing, a returned index is above every index stored
    for the directory, and the stored index grows. *)
Lemma find_next_subfolder_above (w : World) (base_dir : Path)
    (prefix : string) (c c' : gmap string Z) (candidate : Path) :
  let base := resolve w (expanduser w base_dir) in
  find_next_subfolder w base_dir prefix c = Ok (candidate, c') ->
  exists (idx : Z) (sidx : string),
    idx = Z.max (default 1 (c !! path_str base))
                (scan prefix (iterdir w base) 0 + 1)
    /\ str_of_int idx = Ok sidx
    /\ candidate = path_join base (prefix +:+ sidx)
    /\ c' = <[path_str base := idx + 1]> c
    /\ mkdir w base = true.
Proof.
  intros base H. unfold find_next_subfolder in H. fold base in H.
  destruct (mkdir w base); cbn [mbind result_bind] in H; [|discriminate H].
  match type of H with context [str_of_int ?i] =>
    destruct (str_of_int i) as [sidx|] eqn:Hs;
    cbn [mbind result_bind] in H; [|discriminate H];
    exists i, sidx
  end.
  injection H as <- <-. done.
Qed.
End AllocationFacts.

(** ** Log lines *)

(** *** Streams opened in text mode *)

Lemma universal_newlines_cons (c : ascii) (r : string) :
  universal_newlines (String c r)
  = if Ascii.eqb c CR then
      match r with
      | String d r' =>
          if Ascii.eqb d LF then String LF (universal_newlines r')
          else String LF (universal_newlines r)
      | EmptyString => String LF EmptyString
      end
    else String c (universal_newlines r).
Proof. reflexivity. Qed.

Lemma universal_newlines_no_cr_upto (n : nat) (raw : string) :
  (String.length raw <= n)%nat -> contains CR (universal_newlines raw) = false.
Proof.
  revert raw. induction n as [|n IH]; intros [|c r] Hlen; try done.
  { simpl in Hlen. lia. }
  rewrite universal_newlines_cons. simpl in Hlen.
  destruct (Ascii.eqb c CR) eqn:Hc.
  - destruct r as [|d r']; [done|]. simpl in Hlen.
    destruct (Ascii.eqb d LF);
      cbn [contains]; change (Ascii.eqb LF CR) with false; cbn [orb];
      apply IH; simpl; lia.
  - cbn [contains]. rewrite Hc. cbn [orb]. apply IH. lia.
Qed.

(** A text read with universal newlines holds no carriage return. *)
Lemma universal_newlines_no_cr (raw : string) :
  contains CR (universal_newlines raw) = false.
Proof. by apply (universal_newlines_no_cr_upto (String.length raw)). Qed.

Lemma readlines_no_cr (text : string) :
  contains CR text = false ->
  Forall (fun l => contains CR l = false /\ is_empty l = false) (readlines text).
Proof.
  induction text as [|c r IH]; simpl; [by constructor|].
  intros [Hc Hr]%orb_false_iff. specialize (IH Hr).
  destruct (Ascii.eqb c LF).
  - constructor; [|done]. simpl. by rewrite Hc.
  - destruct (readlines r) as [|l ls].
    + constructor; [|done]. simpl. by rewrite Hc.
    + inversion IH as [|?? [Hl _] Hls]; subst.
      constructor; [|done]. simpl. by rewrite Hc, Hl.
Qed.

Lemma read_lines_no_cr (lines : list string) :
  Forall (fun l => contains CR l = false /\ is_empty l = false) lines ->
  read_lines lines = map rstrip lines.
Proof.
  induction 1 as [|l ls [Hcr Hne] _ IH]; simpl; [done|].
  unfold read_line. by rewrite Hne, Hcr, IH.
Qed.

(** On the streams [start_capture] opens ([text=True]), every line end of
    the process, carriage returns included, ends a log line: each line read
    is enqueued without its trailing white space. *)
Lemma read_stream_text_mode (raw : string) (tag : option string) :
  _read_stream (Some (readlines (universal_newlines raw))) tag
  = map (fun l => (rstrip l, tag)) (readlines (universal_newlines raw)).
Proof.
  unfold _read_stream.
  rewrite (read_lines_no_cr _ (readlines_no_cr _ (universal_newlines_no_cr raw))).
  by rewrite map_map.
Qed.

(** C8: the branch of [_read_stream] that cuts a line at its carriage
    returns and leaves out the blank fragments never runs.  The streams it
    reads are opened by [start_capture] with [text=True], where every
    carriage return has become a line end before [readline] answers: (1) no
    line it reads holds a carriage return, and (2) every line read is
    enqueued, without its trailing white space, empty or not.  On the
    output [gap_chunk], two progress updates with an empty one between
    them, (3) the fragments that are not empty are the two updates, (4)
    which is what the branch enqueues when the chunk reaches it as one
    line; but (5) the chunk is read as three lines, and (6) three log lines
    are enqueued, the second one empty. *)
Theorem read_stream_enqueues_empty_fragments :
  (forall raw : string,
     Forall (fun line => contains CR line = false)
            (readlines (universal_newlines raw)))
  /\ (forall (raw : string) (tag : option string),
        _read_stream (Some (readlines (universal_newlines raw))) tag
        = map (fun l => (rstrip l, tag)) (readlines (universal_newlines raw)))
  /\ nonempty_fragments gap_chunk
     = ["Capturing... 00:01"; "Capturing... 00:02"]
  /\ _read_stream (Some [gap_chunk]) None
     = [("Capturing... 00:01", None); ("Capturing... 00:02", None)]
  /\ readlines (universal_newlines gap_chunk)
     = ["Capturing... 00:01" +:+ String LF ""; String LF "";
        "Capturing... 00:02" +:+ String LF ""]
  /\ _read_stream (Some (readlines (universal_newlines gap_chunk))) None
     = [("Capturing... 00:01", None); ("", None);
        ("Capturing... 00:02", None)].
Proof.
  split; [|split; [exact read_stream_text_mode|]].
  - intros raw.
    eapply Forall_impl;
      [apply readlines_no_cr, universal_newlines_no_cr|].
    by intros line [H _].
  - vm_compute. repeat split; reflexivity.
Qed.

(** ** A name joined to a directory *)

Lemma split_without_sep (sep : ascii) (s : string) :
  contains sep s = false -> split sep s = [s].
Proof.
  induction s as [|c r IH]; simpl; [done|].
  intros [Hc Hr]%orb_false_iff. by rewrite Hc, (IH Hr).
Qed.

Lemma contains_app (sep : ascii) (a b : string) :
  contains sep (a +:+ b) = contains sep a || contains sep b.
Proof.
  induction a as [|c a IH]; [done|].
  change (contains sep (String c (a +:+ b))
          = (Ascii.eqb c sep || contains sep a) || contains sep b).
  cbn [contains]. by rewrite IH, orb_assoc.
Qed.

Lemma decimal_no_sep (s : string) :
  forallb_str is_decimal s = true -> contains "/" s = false.
Proof.
  induction s as [|c r IH]; simpl; [done|].
  intros [Hc Hr]%andb_true_iff. rewrite (IH Hr), orb_false_r.
  destruct c as [[] [] [] [] [] [] [] []]; try discriminate Hc; reflexivity.
Qed.

Lemma path_of_str_name (name : string) :
  contains "/" name = false -> is_part name = true ->
  path_of_str name = mkPath "" [name].
Proof.
  intros Hsep Hpart. unfold path_of_str.
  rewrite (split_without_sep _ _ Hsep).
  rewrite filter_cons_True by by rewrite Hpart.
  rewrite filter_nil. f_equal.
  destruct name as [|c r]; [done|].
  simpl in Hsep. apply orb_false_iff in Hsep as [Hc _].
  destruct c as [[] [] [] [] [] [] [] []]; try discriminate Hc; reflexivity.
Qed.

(** A name that holds no separator, joined to a directory, is an
    immediate child of it. *)
Lemma path_join_child (p : Path) (name : string) :
  contains "/" name = false -> is_part name = true ->
  path_join p name = mkPath (root p) (parts p ++ [name]).
Proof.
  intros Hsep Hpart. unfold path_join.
  by rewrite (path_of_str_name name Hsep Hpart).
Qed.

Lemma is_part_index (prefix sidx : string) :
  sidx <> "" -> forallb_str is_decimal sidx = true ->
  is_part (prefix +:+ sidx) = true.
Proof.
  intros Hne Hdec. unfold is_part.
  destruct sidx as [|c r]; [done|].
  destruct prefix as [|a [|b p]]; simpl.
  - destruct r; [|by destruct c as [[] [] [] [] [] [] [] []]].
    simpl in Hdec. rewrite andb_true_r in Hdec.
    destruct c as [[] [] [] [] [] [] [] []]; try discriminate Hdec; reflexivity.
  - by destruct a as [[] [] [] [] [] [] [] []].
  - by destruct a as [[] [] [] [] [] [] [] []].
Qed.

Section ChildFacts.
Context {I : Interp}.

Lemma index_text (idx : Z) (sidx : string) :
  0 <= idx -> str_of_int idx = Ok sidx ->
  sidx <> "" /\ forallb_str is_decimal sidx = true.
Proof.
  intros Hidx. unfold str_of_int.
  destruct (digits_spec (Z.abs idx)) as (Hne & Hdec & _); [lia|].
  destruct (too_many_digits _); [done|].
  destruct (Z.ltb_spec idx 0); [lia|]. by intros [= <-].
Qed.

(** With a prefix that holds no separator, the allocated directory is the
    immediate child of the base directory named by the prefix and the
    index. *)
Lemma allocated_is_child (base : Path) (prefix : string) (idx : Z)
    (sidx : string) :
  contains "/" prefix = false -> 0 <= idx -> str_of_int idx = Ok sidx ->
  path_join base (prefix +:+ sidx)
  = mkPath (root base) (parts base ++ [prefix +:+ sidx]).
Proof.
  intros Hsep Hidx Hs.
  destruct (index_text idx sidx Hidx Hs) as [Hne Hdec].
  apply path_join_child.
  - by rewrite contains_app, Hsep, (decimal_no_sep _ Hdec).
  - by apply is_part_index.
Qed.
End ChildFacts.

(** ** Session control *)

Lemma new_effects_app (st st' : State) (l : list effect) :
  trace st' = trace st ++ l -> new_effects st st' = l.
Proof. intros H. unfold new_effects. rewrite H. apply drop_app_length. Qed.

Lemma str_or_nonempty (s d : string) :
  is_empty d = false -> is_empty (str_or s d) = false.
Proof. unfold str_or. by destruct s. Qed.

Section SessionFacts.
Context {I : Interp}.

(** A configured executable that neither exists nor is found on the PATH
    is what [which_dvgrab] answers. *)
Lemma which_dvgrab_missing (e : Env) (p : string) :
  is_empty p = false -> path_exists e p = Ok false -> which e p = None ->
  which_dvgrab e (VStr p) = Ok p.
Proof.
  intros Hp Hex Hwh. unfold which_dvgrab. rewrite Hp, Hex, Hwh. simpl.
  by destruct (contains "/" p).
Qed.

(** C6 (as amended): when the configured executable does not exist and is
    not found on the search path, [start_capture] reports "dvgrab not
    found" before anything else is done: no directory is made, the
    allocation state is not touched, nothing is saved and no process is
    started.  When the existence test itself raises, at the first place
    that asks it, the exception leaves [start_capture] without a dialog,
    and equally nothing has been done. *)
Theorem start_capture_missing_executable (w : World) (st : State) :
  let p := str_or (strip (dvgrab_path_var (vars st))) "dvgrab" in
  proc st = None ->
  (path_exists (env w) p = Ok false ->
   which (env w) p = None ->
   start_capture w st
   = (Ok tt,
      mkState (cfg st) (proc st) (last_folder st) (stop_requested st)
        (capturing st) (vars st) (trace st ++ [ShowError "dvgrab not found"])))
  /\ (forall x : exn,
        path_exists (env w) p = Raise x ->
        start_capture w st = (Raise x, st)).
Proof.
  intros p Hproc.
  assert (is_empty p = false) as Hne by by apply str_or_nonempty.
  split.
  - intros Hex Hwh.
    unfold start_capture. unfold mbind at 1, M_bind at 1, get at 1.
    destruct (proc st) eqn:Hp; [discriminate Hproc|].
    cbv [mbind M_bind lift dict_index]. rewrite gather_dvgrab_path.
    cbv [result_bind]. fold p.
    rewrite (which_dvgrab_missing (env w) p Hne Hex Hwh).
    rewrite Hwh, Hex. cbn [found_or is_empty negb]. unfold emit.
    by rewrite Hp.
  - intros x Hx.
    unfold start_capture. unfold mbind at 1, M_bind at 1, get at 1.
    destruct (proc st) eqn:Hp; [discriminate Hproc|].
    cbv [mbind M_bind lift dict_index]. rewrite gather_dvgrab_path.
    cbv [result_bind]. fold p.
    rewrite (which_dvgrab_exists_raises (env w) p x); [done| |done].
    by apply is_empty_false.
Qed.

(** The "Choose an output directory" rejection is never shown: the test
    that guards it is on a [Path] object, which is always true. *)
Lemma start_capture_never_rejects_output (w : World) (st st' : State)
    (r : result unit) :
  start_capture w st = (r, st') ->
  ShowError "Output" ∉ new_effects st st'.
Proof.
  intros H Hin.
  unfold start_capture in H. unfold_run H. split_run H.
  all: injection H as <- <-.
  all: try discriminate.
  all: by no_such_effect Hin.
Qed.


(** The preview leaves the next index of the base directory advanced:
    what [find_next_subfolder] stored in [self.cfg] stays there. *)
Lemma copy_command_advances_index (w : World) (st st' : State)
    (r : result unit) (cmd : list string) :
  let prefix := str_or (strip (subprefix_var (vars st))) "tape" in
  let base :=
    resolve w (expanduser w (expanduser w
      (path_of_str (strip (output_dir_var (vars st)))))) in
  let key := path_str base in
  let idx := Z.max (default 1 (cfg st !! key))
                   (scan prefix (iterdir w base) 0 + 1) in
  copy_command w st = (r, st') ->
  Clipboard cmd ∈ new_effects st st' ->
  cfg st' = <[key := idx + 1]> (cfg st) /\ cfg st' !! key <> cfg st !! key.
Proof.
  intros prefix base key idx H Hin.
  unfold copy_command in H. unfold_run H. split_run H.
  all: injection H as <- <-.
  all: try (by no_such_effect Hin).
  all: match goal with
       | Hf : find_next_subfolder _ _ _ _ = Ok _ |- _ =>
           apply find_next_subfolder_above in Hf
             as (idx1 & sidx & Hidx & Hs & -> & -> & Hmk)
       end.
  all: cbv zeta in Hmk; try congruence.
  fold base key prefix in Hidx. fold idx in Hidx. subst idx1.
  cbn [cfg]. split; [done|].
  rewrite lookup_insert_eq. unfold idx.
  destruct (cfg st !! key) as [n|]; [|done].
  simpl. intros [= Hn]. lia.
Qed.
End SessionFacts.

(** ** More about the argument vector *)

Lemma found_or_nonempty (found : option string) (x : string) :
  x <> "" -> found_or found x <> "".
Proof.
  intros Hx. unfold found_or. destruct found as [f|]; [|done].
  destruct f; simpl; [done|discriminate].
Qed.

(** What [which_dvgrab] returns and what it raises. *)
Lemma which_dvgrab_cases (e : Env) (path_pref : pyval) :
  match which_dvgrab e path_pref with
  | Ok bin => bin <> ""
  | Raise x =>
      (x = TypeError /\ truthy path_pref = true
       /\ forall s : string, path_pref <> VStr s)
      \/ exists s : string,
           path_pref = VStr s /\ s <> "" /\ path_exists e s = Raise x
  end.
Proof.
  destruct path_pref as [| b | z | s]; simpl.
  - by apply found_or_nonempty.
  - destruct b; [by left|]. by apply found_or_nonempty.
  - destruct (z =? 0)%Z; simpl; [by apply found_or_nonempty|by left].
  - destruct s as [|c r]; simpl; [by apply found_or_nonempty|].
    destruct (path_exists e (String c r)) as [there|x] eqn:Hex;
      cbn [mbind result_bind].
    + destruct (there || _); [done|]. by apply found_or_nonempty.
    + right. by exists (String c r).
Qed.

(** X1: [which_dvgrab] never answers an empty name.  It answers the
    configured name, the file the PATH search found, or ["dvgrab"]; and it
    raises only [TypeError], for a value that is true and is not a string,
    or what the existence test of a configured name raises. *)
Theorem which_dvgrab_never_empty (e : Env) (path_pref : pyval) :
  match which_dvgrab e path_pref with
  | Ok bin =>
      bin <> ""
      /\ (bin = searched path_pref
          \/ which e (searched path_pref) = Some bin)
  | Raise x =>
      (x = TypeError /\ truthy path_pref = true
       /\ forall s : string, path_pref <> VStr s)
      \/ exists s : string,
           path_pref = VStr s /\ s <> "" /\ path_exists e s = Raise x
  end.
Proof.
  pose proof (which_dvgrab_cases e path_pref) as Hc.
  destruct (which_dvgrab e path_pref) as [bin|x] eqn:Hw; [|exact Hc].
  split; [exact Hc|].
  assert (forall name : string,
            found_or (which e name) name = name
            \/ which e name = Some (found_or (which e name) name)) as Hfound.
  { intros name. unfold found_or. destruct (which e name) as [f|]; [|by left].
    destruct f; [by left|by right]. }
  destruct path_pref as [| b | z | s]; simpl in Hw.
  - injection Hw as <-. apply Hfound.
  - destruct b; [done|]. injection Hw as <-. apply Hfound.
  - destruct (z =? 0)%Z; simpl in Hw; [|done]. injection Hw as <-. apply Hfound.
  - destruct s as [|c r]; simpl in Hw.
    + injection Hw as <-. apply Hfound.
    + destruct (path_exists e (String c r)) as [there|]; cbn [mbind result_bind] in Hw;
        [|done].
      destruct (there || _); injection Hw as <-; [by left|apply Hfound].
Qed.

Section BuilderErrors.
Context {I : Interp}.

Lemma int_of_str_raises (s : string) (x : exn) :
  int_of_str s = Raise x -> x = ValueError.
Proof.
  unfold int_of_str.
  destruct (match rstrip_by is_int_space (lstrip_by is_int_space s) with
            | String "-" r => (true, r)
            | String "+" r => (false, r)
            | _ => (false, rstrip_by is_int_space (lstrip_by is_int_space s))
            end) as [neg body].
  destruct (parse_literal body) as [[v cnt]|]; [|congruence].
  destruct (too_many_digits cnt); congruence.
Qed.

Lemma str_of_int_raises (z : Z) (x : exn) :
  str_of_int z = Raise x -> x = ValueError.
Proof. unfold str_of_int. destruct (too_many_digits _); congruence. Qed.

Lemma py_int_raises (v : pyval) (x : exn) :
  py_int v = Raise x -> x = ValueError \/ x = TypeError.
Proof.
  destruct v as [| b | z | s]; simpl; try congruence.
  - intros [= <-]. by right.
  - intros H%int_of_str_raises. by left.
Qed.

Lemma py_str_raises (v : pyval) (x : exn) :
  py_str v = Raise x -> x = ValueError.
Proof.
  destruct v as [| b | z | s]; simpl; try congruence.
  apply str_of_int_raises.
Qed.

Lemma opt_int_raises (name : string) (n : Z) (x : exn) :
  opt_int name n = Raise x -> x = ValueError.
Proof.
  unfold opt_int. destruct (str_of_int n) eqn:E; cbn [mbind result_bind];
    [congruence|].
  intros [= <-]. by apply str_of_int_raises in E.
Qed.

Lemma stripped_raises (v : gmap string pyval) (k : string) (x : exn) :
  stripped v k = Raise x -> x = ValueError.
Proof.
  unfold stripped. destruct (py_str _) eqn:E; cbn [mbind result_bind];
    [congruence|].
  intros [= <-]. by apply py_str_raises in E.
Qed.

Lemma dict_index_raises (v : gmap string pyval) (k : string) (x : exn) :
  dict_index v k = Raise x -> x = KeyError k /\ v !! k = None.
Proof. unfold dict_index. destruct (v !! k); [congruence|]. by intros [= <-]. Qed.

(** The exceptions of the option rules. *)
Lemma build_args_raises (v : gmap string pyval) (d : Path) (x : exn) :
  build_args v d = Raise x ->
  (exists k, x = KeyError k /\ v !! k = None
             /\ k ∈ ["format"; "filename_scheme"])
  \/ x = ValueError \/ x = TypeError.
Proof.
  unfold build_args. intros H.
  repeat match type of H with
  | context [@mbind result _ _ _ _ ?r] =>
      destruct r as [?|x0] eqn:?; cbn [mbind result_bind] in H;
        [|injection H as <-]
  end; try discriminate H.
  all: repeat match goal with
       | E : (if ?c then _ else _) = Raise _ |- _ => destruct c
       | E : Ok _ = Raise _ |- _ => discriminate E
       | E : mbind _ ?r = Raise _ |- _ =>
           destruct r eqn:?; cbn [mbind result_bind] in E
       end.
  all: repeat match goal with
       | E : Raise ?a = Raise ?b |- _ => injection E as <-
       end.
  all: try match goal with
       | E : dict_index _ ?k = Raise _ |- _ =>
           apply dict_index_raises in E as [-> ?]; left; exists k;
           split; [done|split; [done|in_list]]
       end.
  all: right.
  all: try match goal with
       | E : py_int _ = Raise _ |- _ => by apply py_int_raises in E
       end.
  all: left.
  all: match goal with
       | E : opt_int _ _ = Raise _ |- _ => by apply opt_int_raises in E
       | E : stripped _ _ = Raise _ |- _ => by apply stripped_raises in E
       | E : str_of_int _ = Raise _ |- _ => by apply str_of_int_raises in E
       end.
Qed.

(** X2: the exceptions of [build_dvgrab_cmd].  A [KeyError] names one of
    the three entries read with [values[...]], and that entry is absent;
    every other entry is optional.  Beside it only a conversion fails
    ([ValueError] for a number that cannot be read or written, [TypeError]
    for a value that is no number or no path), or the existence test of the
    configured executable.  And each of the three entries is required:
    without it the call raises. *)
Theorem build_dvgrab_cmd_raises (e : Env) (v : gmap string pyval) (d : Path) :
  (forall x : exn,
     build_dvgrab_cmd e v d = Raise x ->
     (exists k, x = KeyError k /\ v !! k = None
                /\ k ∈ ["dvgrab_path"; "format"; "filename_scheme"])
     \/ x = ValueError \/ x = TypeError
     \/ exists s, v !! "dvgrab_path" = Some (VStr s)
                  /\ path_exists e s = Raise x)
  /\ (forall k : string,
        k ∈ ["dvgrab_path"; "format"; "filename_scheme"] ->
        v !! k = None ->
        exists x, build_dvgrab_cmd e v d = Raise x).
Proof.
  split.
  - intros x. rewrite build_dvgrab_cmd_factor.
    destruct (dict_index v "dvgrab_path") as [pp|x0] eqn:Hpp;
      cbn [mbind result_bind].
    2:{ intros [= <-]. apply dict_index_raises in Hpp as [-> ?].
        left. exists "dvgrab_path". split; [done|split; [done|in_list]]. }
    pose proof (which_dvgrab_cases e pp) as Hw.
    destruct (which_dvgrab e pp) as [bin|x0]; cbn [mbind result_bind].
    2:{ intros [= <-]. destruct Hw as [[-> _]|(s & -> & _ & Hs)].
        - by right; right; left.
        - right; right; right. exists s. split; [|done].
          unfold dict_index in Hpp. by destruct (v !! "dvgrab_path") as [?|];
            [injection Hpp as ->|]. }
    destruct (build_args v d) as [args|x0] eqn:Ha; cbn [mbind result_bind];
      [done|].
    intros [= <-]. apply build_args_raises in Ha as [(k & -> & Hk & Hin)|Ha].
    + left. exists k. split; [done|split; [done|by apply list_elem_of_further]].
    + right. destruct Ha as [->| ->]; [by left|by right; left].
  - intros k Hk Hnone. rewrite build_dvgrab_cmd_factor. unfold dict_index.
    destruct (v !! "dvgrab_path") as [pp|] eqn:Hpp; cbn [mbind result_bind];
      [|by eexists].
    destruct (which_dvgrab e pp) as [bin|x0]; cbn [mbind result_bind];
      [|by eexists].
    unfold build_args, dict_index.
    destruct (v !! "format") as [fmt|] eqn:Hfmt; cbn [mbind result_bind];
      [|by eexists].
    destruct (v !! "filename_scheme") as [scheme|] eqn:Hsch;
      cbn [mbind result_bind]; [|by eexists].
    repeat (apply elem_of_cons in Hk as [->|Hk]; [congruence|]).
    by apply elem_of_nil in Hk.
Qed.
End BuilderErrors.

Section BuilderDefaults.
Context {I : Interp}.

(** X3: the entries [build_dvgrab_cmd] reads with [values.get] are
    optional, and an absent one counts as the value [optional_defaults]
    lists for it: the vector, or the exception, is the one the call gives
    when the entry holds that value. *)
Theorem build_dvgrab_cmd_optional_defaults (e : Env) (v : gmap string pyval)
    (d : Path) (k : string) (dflt : pyval) :
  (k, dflt) ∈ optional_defaults ->
  v !! k = None ->
  build_dvgrab_cmd e (<[k := dflt]> v) d = build_dvgrab_cmd e v d.
Proof.
  unfold optional_defaults. intros Hk Hnone.
  repeat (apply elem_of_cons in Hk as [[= -> ->]|Hk];
    [unfold build_dvgrab_cmd, stripped, flag_opts, dict_index, dict_get,
       dict_get_default;
     rewrite ?lookup_insert_eq; rewrite ?lookup_insert_ne by discriminate;
     rewrite ?Hnone; reflexivity|]).
  by apply elem_of_nil in Hk.
Qed.
End BuilderDefaults.

Lemma append_nonempty_r (s t : string) : t <> "" -> s +:+ t <> "".
Proof. intros Ht. destruct s; simpl; [done|discriminate]. Qed.

Lemma join_snoc_nonempty (sep : string) (l : list string) (x : string) :
  x <> "" -> join sep (l ++ [x]) <> "".
Proof.
  intros Hx. induction l as [|a l IH]; simpl; [done|].
  destruct (l ++ [x]) as [|b r] eqn:E; [by destruct l|].
  by do 2 apply append_nonempty_r.
Qed.

(** The base name given to dvgrab is never empty. *)
Lemma clip_base_nonempty (d : Path) : path_str (path_join d "clip-") <> "".
Proof.
  change (path_join d "clip-") with (mkPath (root d) (parts d ++ ["clip-"])).
  unfold path_str. cbn [root parts].
  assert (join "/" (parts d ++ ["clip-"]) <> "") as Hj
    by by apply join_snoc_nonempty.
  destruct (root d); [|discriminate].
  by destruct (parts d ++ ["clip-"]).
Qed.

Lemma isdigit_nonempty (s : string) : isdigit s = true -> s <> "".
Proof. by destruct s. Qed.

Lemma format_opt_nonempty (fmt : pyval) : Forall (fun a => a <> "") (format_opt fmt).
Proof.
  destruct fmt as [| b | z | f]; simpl; try by constructor.
  destruct f as [|c r]; cbn [is_empty negb]; [by constructor|].
  repeat match goal with
  | |- context [if ?c then _ else _] => destruct c
  end; by repeat constructor.
Qed.

Lemma scheme_opt_nonempty (scheme : pyval) :
  Forall (fun a => a <> "") (scheme_opt scheme).
Proof.
  unfold scheme_opt.
  repeat (destruct (eq_str scheme _); [by repeat constructor|]).
  by constructor.
Qed.

Lemma flag_opts_nonempty (v : gmap string pyval) (fmt : pyval) :
  Forall (fun a => a <> "") (flag_opts v fmt).
Proof.
  unfold flag_opts. rewrite !Forall_app.
  repeat split;
    match goal with
    | |- context [if ?c then _ else _] => destruct c
    end; by repeat constructor.
Qed.

Section BuilderTokens.
Context {I : Interp}.

Lemma str_of_int_nonempty (z : Z) (s : string) : str_of_int z = Ok s -> s <> "".
Proof.
  unfold str_of_int.
  destruct (digits_spec (Z.abs z)) as (Hne & _ & _); [lia|].
  destruct (too_many_digits _); [done|]. intros [= <-].
  by destruct (z <? 0)%Z.
Qed.

Lemma opt_int_nonempty (c : bool) (name : string) (n : Z) (l : list string) :
  name <> "" ->
  (if c then opt_int name n else Ok []) = Ok l -> Forall (fun a => a <> "") l.
Proof.
  intros Hname. destruct c; [|by intros [= <-]].
  unfold opt_int. destruct (str_of_int n) as [s|] eqn:E;
    cbn [mbind result_bind]; [|done].
  intros [= <-]. apply str_of_int_nonempty in E. by repeat constructor.
Qed.

(** X4: no argument of the vector is the empty string, whatever the
    configuration holds: an entry that is empty gives no token at all. *)
Theorem build_dvgrab_cmd_no_empty_argument (e : Env) (v : gmap string pyval)
    (d : Path) :
  match build_dvgrab_cmd e v d with
  | Ok cmd => Forall (fun a => a <> "") cmd
  | Raise _ => True
  end.
Proof.
  destruct (build_dvgrab_cmd e v d) as [cmd|] eqn:H; [|done].
  apply build_dvgrab_cmd_inv in H as (pp & bin & args & _ & Hbin & Ha & ->).
  constructor.
  { pose proof (which_dvgrab_cases e pp) as Hw. by rewrite Hbin in Hw. }
  unfold build_args in Ha.
  repeat match type of Ha with
  | context [@mbind result _ _ _ _ ?r] =>
      destruct r eqn:?; cbn [mbind result_bind] in Ha; [|discriminate Ha]
  end.
  injection Ha as <-. rewrite !Forall_app.
  repeat split.
  - apply format_opt_nonempty.
  - apply scheme_opt_nonempty.
  - eapply opt_int_nonempty; [|eassumption]; discriminate.
  - eapply opt_int_nonempty; [|eassumption]; discriminate.
  - match goal with
    | E : (if ?c then _ else _) = Ok _ |- _ => destruct c; [|by injection E as <-]
    end.
    match goal with
    | E : mbind _ ?r = Ok _ |- _ =>
        destruct r; cbn [mbind result_bind] in E; [|discriminate E]
    end.
    match goal with
    | E : (if ?c then _ else _) = Ok _ |- _ =>
        destruct c; [|injection E as <-; by repeat constructor]
    end.
    match goal with
    | E : mbind _ ?r = Ok _ |- _ =>
        destruct r; cbn [mbind result_bind] in E; [|discriminate E];
        injection E as <-
    end.
    by repeat constructor.
  - eapply opt_int_nonempty; [|eassumption]; discriminate.
  - eapply opt_int_nonempty; [|eassumption]; discriminate.
  - apply flag_opts_nonempty.
  - destruct (isdigit _) eqn:E; [|by constructor].
    apply isdigit_nonempty in E. by repeat constructor.
  - destruct (isdigit _) eqn:E; [|by constructor].
    apply isdigit_nonempty in E. by repeat constructor.
  - destruct (is_empty _) eqn:E; [by constructor|].
    apply is_empty_false in E. by repeat constructor.
  - match goal with
    | E : (if ?c then _ else _) = Ok _ |- _ => destruct c; [|by injection E as <-]
    end.
    match goal with
    | E : mbind _ ?r = Ok _ |- _ =>
        destruct r as [inp|]; cbn [mbind result_bind] in E; [|discriminate E];
        injection E as <-
    end.
    constructor; [done|].
    destruct (is_empty inp) eqn:E; [by constructor|].
    apply is_empty_false in E. by repeat constructor.
  - destruct (is_empty _) eqn:E; [by constructor|].
    apply is_empty_false in E. by repeat constructor.
  - eapply opt_int_nonempty; [|eassumption]; discriminate.
  - constructor; [apply clip_base_nonempty|constructor].
Qed.
End BuilderTokens.

Lemma format_opt_fmt_map (label : string) :
  format_opt (VStr (fmt_map label)) = ["-format"; fmt_map label]
  /\ fmt_map label ∈ "mpeg2" :: formats.
Proof.
  unfold fmt_map.
  repeat match goal with
  | |- context [if String.eqb label ?l then _ else _] =>
      destruct (String.eqb label l);
        [split; [reflexivity|unfold formats; in_list]|]
  end.
  split; [reflexivity|unfold formats; in_list].
Qed.

Section BuilderWidgets.
Context {I : Interp}.

(** The option rules start with the format and the filename scheme. *)
Lemma build_args_shape (v : gmap string pyval) (d : Path) (args : list string) :
  build_args v d = Ok args ->
  exists (fmt scheme : pyval) (rest : list string),
    v !! "format" = Some fmt /\ v !! "filename_scheme" = Some scheme
    /\ args = format_opt fmt ++ scheme_opt scheme ++ rest.
Proof.
  unfold build_args, dict_index. intros H.
  destruct (v !! "format") as [fmt|]; cbn [mbind result_bind] in H;
    [|discriminate H].
  destruct (v !! "filename_scheme") as [scheme|]; cbn [mbind result_bind] in H;
    [|discriminate H].
  bind_inv H. injection H as <-.
  exists fmt, scheme. eexists. split; [done|]. split; [done|]. reflexivity.
Qed.

(** X5: whatever the widgets hold, the vector built from them starts with
    the executable [which_dvgrab] answers, then ["-format"] and one of the
    seven format names (the one the label of the selector stands for,
    ["dv2"] for any other text), then the token of the filename scheme. *)
Theorem build_dvgrab_cmd_format_from_widgets (e : Env) (w : Widgets) (d : Path)
    (bin : string) :
  which_dvgrab e (VStr (str_or (strip (dvgrab_path_var w)) "dvgrab")) = Ok bin ->
  fmt_map (format_var w) ∈ "mpeg2" :: formats
  /\ exists rest : list string,
       build_dvgrab_cmd e (_gather_values w) d
       = Ok (bin :: "-format" :: fmt_map (format_var w)
               :: scheme_opt (VStr (scheme_var w)) ++ rest).
Proof.
  intros Hbin.
  destruct (format_opt_fmt_map (format_var w)) as [Hf Hin].
  split; [exact Hin|].
  destruct (build_args_gathered w d) as [args Ha].
  rewrite build_dvgrab_cmd_factor. unfold dict_index.
  rewrite gather_dvgrab_path. cbn [mbind result_bind].
  rewrite Hbin. cbn [mbind result_bind].
  rewrite Ha. cbn [mbind result_bind].
  apply build_args_shape in Ha as (fmt & scheme & rest & Hfmt & Hsch & ->).
  rewrite gather_format in Hfmt. injection Hfmt as <-.
  rewrite gather_filename_scheme in Hsch. injection Hsch as <-.
  exists rest. rewrite Hf. reflexivity.
Qed.
End BuilderWidgets.

(** ** More about the allocation *)

Section AllocationMore.
Context {I : Interp}.


End AllocationMore.

(** ** Successive allocations *)

Lemma append_inj_r (p s t : string) : p +:+ s = p +:+ t -> s = t.
Proof.
  induction p as [|c p IH]; [done|].
  intros H. apply IH.
  change (String c (p +:+ s) = String c (p +:+ t)) in H. by injection H.
Qed.

Section AllocationOrder.
Context {I : Interp}.

(** X19: two allocations under the same base directory and prefix never
    return the same directory, whatever happened to the file system between
    them (the first directory removed, a listing that fails) and whatever
    was allocated for other base directories: the second index is above
    the first one.  The prefix holds no separator. *)
Theorem find_next_subfolder_never_repeats (w1 w2 : World) (base_dir : Path)
    (prefix : string) (c c1 c' c2 : gmap string Z) (first second : Path) :
  let base := resolve w1 (expanduser w1 base_dir) in
  resolve w2 (expanduser w2 base_dir) = base ->
  contains "/" prefix = false ->
  find_next_subfolder w1 base_dir prefix c = Ok (first, c1) ->
  c' !! path_str base = c1 !! path_str base ->
  find_next_subfolder w2 base_dir prefix c' = Ok (second, c2) ->
  first <> second
  /\ exists i j : Z,
       1 <= i < j
       /\ c1 !! path_str base = Some (i + 1)
       /\ c2 !! path_str base = Some (j + 1).
Proof.
  intros base Hbase Hsep H1 Hc H2.
  apply find_next_subfolder_above in H1
    as (i & si & Hi & Hsi & -> & -> & _).
  apply find_next_subfolder_above in H2
    as (j & sj & Hj & Hsj & -> & -> & _).
  cbv zeta in *. rewrite Hbase in *. fold base in Hi, Hj, Hc |- *.
  rewrite lookup_insert_eq in Hc. rewrite Hc in Hj.
  cbn [default] in Hj. unfold id in Hj.
  pose proof (scan_ge prefix (iterdir w1 base) 0) as Hs1.
  assert (1 <= i < j) as Hij by lia.
  split.
  - rewrite (allocated_is_child base prefix i si Hsep) by (lia || done).
    rewrite (allocated_is_child base prefix j sj Hsep) by (lia || done).
    intros [= Heq%app_inv_head]. injection Heq as Heq.
    apply append_inj_r in Heq. subst sj.
    apply int_of_str_of_int in Hsi, Hsj. rewrite Hsi in Hsj.
    injection Hsj as ->. lia.
  - exists i, j. by rewrite !lookup_insert_eq.
Qed.
End AllocationOrder.

(** ** More about the session *)

Section SessionMore.
Context {I : Interp}.




(** X9: the preview never raises and never starts anything.  Every run of
    [copy_command] returns; it leaves the process, the last folder and the
    widgets as they were; and what it does to the outside is one of: the
    error dialog alone; the base directory made, then the error dialog; or
    the base directory made, the command put on the clipboard and logged.
    It never makes the target directory, saves the configuration or starts
    a process. *)
Theorem copy_command_effects (w : World) (st : State) :
  let base :=
    resolve w (expanduser w (expanduser w
      (path_of_str (strip (output_dir_var (vars st)))))) in
  let st' := (copy_command w st).2 in
  (copy_command w st).1 = Ok tt
  /\ proc st' = proc st
  /\ last_folder st' = last_folder st
  /\ vars st' = vars st
  /\ (new_effects st st' = [ShowError "Error"]
      \/ new_effects st st' = [Mkdir base; ShowError "Error"]
      \/ exists cmd, new_effects st st' = [Mkdir base; Clipboard cmd; LogCommand cmd]).
Proof.
  intros base st'. subst st'.
  destruct (copy_command w st) as [r st'] eqn:H. cbn [fst snd].
  unfold copy_command in H. unfold_run H. split_run H.
  all: injection H as <- <-.
  all: cbn [cfg proc last_folder trace capturing stop_requested vars].
  all: repeat split; try done.
  all: try (match goal with
            | Hf : find_next_subfolder _ _ _ _ = Ok _,
              Hm : mkdir _ _ = false |- _ =>
                destruct (find_next_subfolder_above _ _ _ _ _ _ Hf)
                  as (? & ? & _ & _ & _ & _ & Hm');
                rewrite Hm' in Hm; discriminate Hm
            end).
  all: first
    [ left; apply new_effects_app; cbn [trace]; rewrite <- ?app_assoc;
      reflexivity
    | right; left; apply new_effects_app; cbn [trace]; rewrite <- ?app_assoc;
      reflexivity
    | right; right; eexists; apply new_effects_app; cbn [trace];
      rewrite <- ?app_assoc; reflexivity ].
Qed.
End SessionMore.

(** ** The configuration and the widgets *)

Lemma rstrip_by_head (p : ascii -> bool) (c : ascii) (r : string) :
  p c = false -> rstrip_by p (String c r) = String c (rstrip_by p r).
Proof. intros H. simpl. by rewrite H, andb_false_r. Qed.

Lemma lstrip_by_head (p : ascii -> bool) (s : string) :
  match lstrip_by p s with
  | EmptyString => True
  | String c _ => p c = false
  end.
Proof.
  induction s as [|c r IH]; simpl; [done|].
  destruct (p c) eqn:E; [done|]. exact E.
Qed.

(** [s.strip().strip() == s.strip()]. *)
Lemma strip_idem (s : string) : strip (strip s) = strip s.
Proof.
  unfold strip, lstrip, rstrip.
  pose proof (lstrip_by_head is_space s) as H.
  destruct (lstrip_by is_space s) as [|c r]; [done|].
  rewrite (rstrip_by_head _ _ _ H). cbn [lstrip_by]. rewrite H.
  rewrite <- (rstrip_by_head _ _ _ H). apply rstrip_by_idem.
Qed.

Lemma str_or_strip_idem (s dflt : string) :
  strip dflt = dflt -> dflt <> "" ->
  str_or (strip (str_or (strip s) dflt)) dflt = str_or (strip s) dflt.
Proof.
  intros Hd Hne. unfold str_or at 2 3.
  destruct (is_empty (strip s)) eqn:E.
  - rewrite Hd. unfold str_or. by destruct dflt.
  - rewrite strip_idem. unfold str_or. by rewrite E.
Qed.

(** The label shown for a format name stands for that name. *)
Lemma fmt_map_label_of (label : string) :
  fmt_map (label_of (VStr (fmt_map label))) = fmt_map label.
Proof.
  unfold fmt_map at 2 3.
  repeat match goal with
  | |- context [if String.eqb label ?l then _ else _] =>
      destruct (String.eqb label l); [reflexivity|]
  end.
  reflexivity.
Qed.

Lemma dict_get_default_union (c dflts : gmap string pyval) (k : string)
    (v : pyval) :
  dflts !! k = Some v ->
  dict_get_default (c ∪ dflts) k v = dict_get_default c k v.
Proof.
  intros H. unfold dict_get_default. rewrite lookup_union, H.
  by destruct (c !! k).
Qed.

Lemma dict_get_default_updated (vals c : gmap string pyval) (k : string)
    (v dflt : pyval) :
  vals !! k = Some v -> dict_get_default (vals ∪ c) k dflt = v.
Proof.
  intros H. unfold dict_get_default. rewrite lookup_union, H.
  by destruct (c !! k).
Qed.

Section SettingsFacts.
Context {I : Interp}.

Lemma gather_showstatus (w : Widgets) :
  _gather_values w !! "showstatus" = Some (VBool (showstatus_var w)).
Proof. gather_lookup. Qed.

Lemma gather_rewind (w : Widgets) :
  _gather_values w !! "rewind" = Some (VBool (rewind_var w)).
Proof. gather_lookup. Qed.

Lemma gather_noavc (w : Widgets) :
  _gather_values w !! "noavc" = Some (VBool (noavc_var w)).
Proof. gather_lookup. Qed.

Lemma gather_recordonly (w : Widgets) :
  _gather_values w !! "recordonly" = Some (VBool (recordonly_var w)).
Proof. gather_lookup. Qed.

Lemma gather_opendml (w : Widgets) :
  _gather_values w !! "opendml" = Some (VBool (opendml_var w)).
Proof. gather_lookup. Qed.

(** A gathered number is written and read back as itself. *)
Lemma _as_int_round_trip (s : string) (dflt : Z) :
  0 <= dflt < 10 ->
  exists t, str_of_int (_as_int s dflt) = Ok t /\ _as_int t dflt = _as_int s dflt.
Proof.
  intros Hd. destruct (_as_int_printable s dflt Hd) as [t Ht].
  exists t. split; [done|].
  unfold _as_int at 1.
  by rewrite (strip_str_of_int _ _ Ht), (int_of_str_of_int _ _ Ht).
Qed.

(** The widgets filled from a configuration that holds the gathered
    values gather to the same values. *)
Lemma load_gathered (d : Desktop) (w : Widgets) (c : gmap string pyval) :
  exists w' : Widgets,
    _load_from_config d (_gather_values w ∪ c) = Ok w'
    /\ format_var w' = label_of (VStr (fmt_map (format_var w)))
    /\ str_of_int (_as_int (size_mb_var w) 0) = Ok (size_mb_var w')
    /\ _gather_values w' = _gather_values w.
Proof.
  unfold _load_from_config.
  rewrite (dict_get_default_updated _ c _ _ _ (gather_output_dir w)).
  rewrite (dict_get_default_updated _ c _ _ _ (gather_subfolder_prefix w)).
  rewrite (dict_get_default_updated _ c _ _ _ (gather_filename_scheme w)).
  rewrite (dict_get_default_updated _ c _ _ _ (gather_format w)).
  rewrite (dict_get_default_updated _ c _ _ _ (gather_showstatus w)).
  rewrite (dict_get_default_updated _ c _ _ _ (gather_autosplit w)).
  rewrite (dict_get_default_updated _ c _ _ _ (gather_autosplit_seconds w)).
  rewrite (dict_get_default_updated _ c _ _ _ (gather_size_mb w)).
  rewrite (dict_get_default_updated _ c _ _ _ (gather_csize_mb w)).
  rewrite (dict_get_default_updated _ c _ _ _ (gather_cmincutsize_mb w)).
  rewrite (dict_get_default_updated _ c _ _ _ (gather_rewind w)).
  rewrite (dict_get_default_updated _ c _ _ _ (gather_noavc w)).
  rewrite (dict_get_default_updated _ c _ _ _ (gather_recordonly w)).
  rewrite (dict_get_default_updated _ c _ _ _ (gather_opendml w)).
  rewrite (dict_get_default_updated _ c _ _ _ (gather_frames_per_file w)).
  rewrite (dict_get_default_updated _ c _ _ _ (gather_every_nth w)).
  rewrite (dict_get_default_updated _ c _ _ _ (gather_card w)).
  rewrite (dict_get_default_updated _ c _ _ _ (gather_channel w)).
  rewrite (dict_get_default_updated _ c _ _ _ (gather_guid w)).
  rewrite (dict_get_default_updated _ c _ _ _ (gather_duration w)).
  rewrite (dict_get_default_updated _ c _ _ _ (gather_use_v4l2 w)).
  rewrite (dict_get_default_updated _ c _ _ _ (gather_v4l2_input w)).
  rewrite (dict_get_default_updated _ c _ _ _ (gather_dvgrab_path w)).
  cbn [py_str var_text truthy].
  destruct (_as_int_round_trip (autosplit_secs_var w) 0) as (t1 & -> & H1); [lia|].
  destruct (_as_int_round_trip (size_mb_var w) 0) as (t2 & -> & H2); [lia|].
  destruct (_as_int_round_trip (csize_mb_var w) 0) as (t3 & -> & H3); [lia|].
  destruct (_as_int_round_trip (cmincutsize_mb_var w) 0) as (t4 & -> & H4); [lia|].
  destruct (_as_int_round_trip (frames_per_file_var w) 0) as (t5 & -> & H5); [lia|].
  destruct (_as_int_round_trip (every_nth_var w) 1) as (t6 & -> & H6); [lia|].
  cbn [mbind result_bind].
  eexists. split; [reflexivity|].
  split; [reflexivity|]. split; [reflexivity|].
  unfold _gather_values.
  cbn [output_dir_var subprefix_var scheme_var format_var showstatus_var
       autosplit_var autosplit_secs_var size_mb_var csize_mb_var
       cmincutsize_mb_var rewind_var noavc_var recordonly_var opendml_var
       frames_per_file_var every_nth_var card_var channel_var guid_var
       duration_var use_v4l2_var v4l2_input_var dvgrab_path_var].
  rewrite H1, H2, H3, H4, H5, H6, !strip_idem, fmt_map_label_of.
  rewrite !str_or_strip_idem by done.
  reflexivity.
Qed.

(** X10: an entry missing from the configuration counts as the value the
    dict of [load_config] gives it when there is no file: the widgets
    [App._load_from_config] fills, or the exception it raises, are those of
    the configuration completed with these defaults.  On the defaults alone
    it fills the widgets. *)
Theorem load_from_config_missing_entries (d : Desktop) (c : gmap string pyval) :
  _load_from_config d (c ∪ default_config d) = _load_from_config d c
  /\ is_ok (_load_from_config d (default_config d)) = true.
Proof.
  assert (forall c, _load_from_config d (c ∪ default_config d)
                    = _load_from_config d c) as Hu.
  { clear c. intros c. unfold _load_from_config.
    rewrite !dict_get_default_union
      by (unfold default_config;
          repeat (rewrite lookup_insert_ne by discriminate);
          apply lookup_insert_eq).
    reflexivity. }
  split; [apply Hu|].
  rewrite <- (left_id_L ∅ (∪) (default_config d)), Hu.
  reflexivity.
Qed.

(** X11: the settings pass through the configuration unchanged.  Filling
    the widgets from the values gathered from them never raises, and the
    widgets so filled gather to the same values: the texts are stripped
    already, a format name comes back from its label, and a number from its
    decimal text. *)
Theorem settings_round_trip (d : Desktop) (w : Widgets) :
  exists w' : Widgets,
    _load_from_config d (_gather_values w) = Ok w'
    /\ _gather_values w' = _gather_values w
    /\ format_var w' = label_of (VStr (fmt_map (format_var w)))
    /\ str_of_int (_as_int (size_mb_var w) 0) = Ok (size_mb_var w').
Proof.
  destruct (load_gathered d w ∅) as (w' & Hl & Hf & Hs & Hg).
  rewrite (right_id_L ∅ (∪)) in Hl.
  by exists w'.
Qed.
End SettingsFacts.

(** ** The warning at launch and the start of a capture *)

Section LaunchFacts.
Context {I : Interp}.

Lemma load_dvgrab_path (d : Desktop) (c : gmap string pyval) (w : Widgets) :
  _load_from_config d c = Ok w ->
  py_str (dict_get_default c "dvgrab_path" (VStr (dvgrab_or_name d)))
  = Ok (dvgrab_path_var w).
Proof.
  unfold _load_from_config. intros H. bind_inv H. by injection H as <-.
Qed.

(** X20: the warning at launch and the refusal of [start_capture] come from
    the same test.  When the configuration names the executable without
    white space around the name and the widgets are as the launch filled
    them, a capture started from the idle state is refused with the dialog
    "dvgrab not found" exactly when the launch showed the warning, and
    raises where the launch raised. *)
Theorem startup_warning_matches_start_capture (d : Desktop)
    (c : gmap string pyval) (s : string) (st : State) :
  c !! "dvgrab_path" = Some (VStr s) ->
  strip s = s -> s <> "" ->
  _load_from_config d c = Ok (vars st) ->
  proc st = None ->
  match startup_warning d c with
  | Ok true =>
      (start_capture (world d) st).1 = Ok tt
      /\ new_effects st (start_capture (world d) st).2
         = [ShowError "dvgrab not found"]
  | Ok false =>
      ShowError "dvgrab not found"
        ∉ new_effects st (start_capture (world d) st).2
  | Raise x => start_capture (world d) st = (Raise x, st)
  end.
Proof.
  intros Hc Hs Hne Hload Hproc.
  apply load_dvgrab_path in Hload. unfold dict_get_default in Hload.
  rewrite Hc in Hload. cbn [default py_str] in Hload. injection Hload as Hv.
  unfold startup_warning, dict_get_default. rewrite Hc.
  cbv beta iota zeta delta [from_option id].
  destruct (start_capture (world d) st) as [r st'] eqn:H. cbn [fst snd].
  unfold start_capture in H. unfold_run H. rewrite Hproc in H.
  rewrite <- Hv, Hs in H. unfold str_or in H.
  destruct s as [|a s']; [done|]. cbn [is_empty] in H.
  destruct (which_dvgrab (env (world d)) (VStr (String a s'))) as [dv|x];
    cbn [mbind result_bind]; cbv beta iota zeta in H; [|by injection H as <- <-].
  destruct (is_empty (found_or (which (env (world d)) dv) "")).
  - destruct (path_exists (env (world d)) dv) as [[]|x];
      cbn [mbind result_bind negb] in H |- *; cbv beta iota zeta in H;
      [|injection H as <- <-;
        split; [done|]; apply new_effects_app; by cbn [trace]
       |by injection H as <- <-].
    intros Hin. split_run H. all: injection H as <- <-.
    all: by no_such_effect Hin.
  - cbn [mbind result_bind]. cbv beta iota zeta in H.
    intros Hin. split_run H. all: injection H as <- <-.
    all: by no_such_effect Hin.
Qed.
End LaunchFacts.

(** ** Saving, stopping and closing *)

Lemma new_actions_app (a a' : App) (l : list action) :
  actions a' = actions a ++ l -> new_actions a a' = l.
Proof. intros H. unfold new_actions. rewrite H. apply drop_app_length. Qed.

Section ControlFacts.
Context {I : Interp}.

(** X12: [save_settings] puts what the widgets show into the
    configuration and keeps every other entry, the directory indices
    included; the configuration it leaves fills the widgets with the same
    values again.  When the file cannot be written the call raises after
    the configuration has been updated, and logs nothing. *)
Theorem save_settings_effects (d : Desktop) (a : App) :
  let vals := _gather_values (vars (session a)) in
  let r := (save_settings d a).1 in
  let a' := (save_settings d a).2 in
  session a' = session a
  /\ (forall (k : string) (v : pyval),
        vals !! k = Some v -> settings a' !! k = Some v)
  /\ (forall k : string, vals !! k = None -> settings a' !! k = settings a !! k)
  /\ (exists w' : Widgets,
        _load_from_config d (settings a') = Ok w' /\ _gather_values w' = vals)
  /\ (save_ok (world d) = true ->
      r = Ok tt
      /\ new_actions a a'
         = [Saved (mkConfig (settings a') (cfg (session a)));
            Logged "Settings saved." false])
  /\ (save_ok (world d) = false ->
      (exists x : exn, r = Raise x) /\ new_actions a a' = []).
Proof.
  intros vals r a'. subst r a'.
  destruct (save_settings d a) as [r a'] eqn:H. cbn [fst snd].
  unfold save_settings in H. unfold_act H. fold vals in H.
  assert (settings a' = vals ∪ settings a /\ session a' = session a) as [Hs Hse].
  { destruct (save_ok (world d)); by injection H as <- <-. }
  split; [done|]. rewrite Hs.
  split; [by intros k v Hk; apply lookup_union_Some_l|].
  split; [by intros k Hk; rewrite lookup_union, Hk, (left_id_L None (∪))|].
  split.
  { destruct (load_gathered d (vars (session a)) (settings a))
      as (w' & Hl & _ & _ & Hg). by exists w'. }
  split; intros Hok; rewrite Hok in H; injection H as <- <-;
    (split; [by eauto|]).
  - apply new_actions_app. cbn [actions settings]. by rewrite <- app_assoc.
  - apply new_actions_app. cbn [actions]. by rewrite app_nil_r.
Qed.

(** X13: [stop_capture] never raises and never forgets the process.
    Without a process it does nothing at all.  With one it asks for the
    stop, sends at most one signal (the process group is interrupted, or,
    when that fails, the process is terminated) and logs that the signal
    was sent, also when neither call went through. *)
Theorem stop_capture_effects (d : Desktop) (a : App) :
  let r := (stop_capture d a).1 in
  let a' := (stop_capture d a).2 in
  r = Ok tt
  /\ proc (session a') = proc (session a)
  /\ settings a' = settings a
  /\ match proc (session a) with
     | None => a' = a
     | Some pid =>
         stop_requested (session a') = true
         /\ vars (session a') = vars (session a)
         /\ exists sent : list action,
              new_actions a a' = sent ++ [Logged "Stop signal sent." false]
              /\ (sent = [Interrupted pid] /\ killpg d pid = true
                  \/ sent = [Terminated pid] /\ killpg d pid = false
                     /\ terminate d pid = true
                  \/ sent = [] /\ killpg d pid = false
                     /\ terminate d pid = false)
     end.
Proof.
  intros r a'. subst r a'.
  destruct (stop_capture d a) as [r a'] eqn:H. cbn [fst snd].
  unfold stop_capture in H. unfold_act H.
  destruct (proc (session a)) as [pid|] eqn:Hp.
  2:{ injection H as <- <-. by rewrite Hp. }
  unfold with_stop_requested in H.
  destruct (killpg d pid) eqn:Hk; [|destruct (terminate d pid) eqn:Ht];
    cbv beta iota zeta in H; cbn [session settings actions] in H;
    injection H as <- <-; cbn [session settings proc stop_requested vars].
  - repeat split; try done. exists [Interrupted pid].
    split; [|by left]. apply new_actions_app. cbn [actions].
    by rewrite <- app_assoc.
  - repeat split; try done. exists [Terminated pid].
    split; [|by right; left]. apply new_actions_app. cbn [actions].
    by rewrite <- app_assoc.
  - repeat split; try done. exists [].
    split; [|by right; right]. by apply new_actions_app.
Qed.
End ControlFacts.

Section CloseFacts.
Context {I : Interp}.

(** X14: closing the window never raises, whatever fails on the way.  The
    settings are put into the configuration first and saved when the file
    can be written.  The window is destroyed, as the last thing done, when
    no capture is running or the user agrees to stop; the question is asked
    only while a capture runs.  A user who declines keeps the window and
    the capture: no signal is sent and the session is as it was, but the
    settings have been saved all the same. *)
Theorem on_close_effects (d : Desktop) (a : App) :
  let vals := _gather_values (vars (session a)) in
  let r := (on_close d a).1 in
  let a' := (on_close d a).2 in
  let saved := Saved (mkConfig (vals ∪ settings a) (cfg (session a))) in
  r = Ok tt
  /\ settings a' = vals ∪ settings a
  /\ proc (session a') = proc (session a)
  /\ (saved ∈ new_actions a a' <-> save_ok (world d) = true)
  /\ (AskedQuit ∈ new_actions a a' <-> proc (session a) <> None)
  /\ (Destroyed ∈ new_actions a a'
      <-> proc (session a) = None \/ askyesno d = true)
  /\ (Destroyed ∈ new_actions a a' -> last (new_actions a a') = Some Destroyed)
  /\ (proc (session a) = None \/ askyesno d = false ->
      session a' = session a
      /\ forall pid : Z,
           (Interrupted pid ∉ new_actions a a')
           /\ (Terminated pid ∉ new_actions a a')
           /\ (Waited pid ∉ new_actions a a'))
  /\ (forall pid : Z,
        Waited pid ∈ new_actions a a' ->
        proc (session a) = Some pid /\ askyesno d = true
        /\ stop_requested (session a') = true).
Proof.
  intros vals r a' saved. subst r a'.
  destruct (on_close d a) as [r a'] eqn:H. cbn [fst snd].
  unfold on_close, save_settings, stop_capture in H. unfold_act H.
  fold vals in H. unfold with_stop_requested in H.
  destruct (save_ok (world d)) eqn:Hsave;
    cbv beta iota zeta in H; cbn [session settings actions] in H;
    (destruct (proc (session a)) as [pid|] eqn:Hp;
     [destruct (askyesno d) eqn:Hask;
      [destruct (killpg d pid) eqn:Hk; [|destruct (terminate d pid) eqn:Ht]|]|]);
    cbv beta iota zeta in H;
    cbn [session settings actions proc negb] in H;
    try rewrite Hp in H; try rewrite Hk in H; try rewrite ?Ht in H;
    cbv beta iota zeta in H;
    cbn [session settings actions proc negb] in H;
    injection H as <- <-;
    cbn [session settings proc stop_requested].
  all: (split; [done|]); (split; [done|]); (split; [done|]).
  all: match goal with
       | |- context [new_actions ?a0 ?a'] =>
           let l := fresh "l" in
           evar (l : list action);
           assert (new_actions a0 a' = l) as ->
             by (apply new_actions_app; cbn [actions];
                 rewrite <- ?app_assoc, ?app_nil_r; subst l; reflexivity);
           subst l
       end.
  all: cbn [Datatypes.app last].
  all: rewrite ?elem_of_cons, ?elem_of_nil.
  all: intuition (try discriminate; try congruence).
  all: repeat match goal with
       | H : _ ∈ _ :: _ |- _ =>
           apply elem_of_cons in H as [H|H];
             [try discriminate H; try (injection H as ->)|]
       | H : _ ∈ [] |- _ => by apply elem_of_nil in H
       end; try done.
Qed.
End CloseFacts.

Section OpenFacts.
Context {I : Interp}.

(** X15: [open_last_folder] opens nothing but the folder of the last
    capture, and only after the file system has answered that it exists.
    Before any capture, or when the folder is gone, it shows the
    information dialog and starts nothing.  It raises only what the
    existence test raises, and has then shown nothing; a file manager that
    cannot be started gives the error dialog, not an exception.  The
    session and the configuration are left as they were. *)
Theorem open_last_folder_effects (d : Desktop) (a : App) :
  let r := (open_last_folder d a).1 in
  let a' := (open_last_folder d a).2 in
  let there p := path_exists (env (world d)) (path_str p) in
  session a' = session a
  /\ settings a' = settings a
  /\ (forall cmd : list string,
        Did (Popen cmd) ∈ new_actions a a' ->
        exists (p : Path) (pid : Z),
          last_folder (session a) = Some p /\ there p = Ok true
          /\ cmd = ["xdg-open"; path_str p] /\ popen (world d) cmd = Spawned pid
          /\ r = Ok tt /\ new_actions a a' = [Did (Popen cmd)])
  /\ (forall x : exn,
        r = Raise x ->
        new_actions a a' = []
        /\ exists p : Path, last_folder (session a) = Some p /\ there p = Raise x)
  /\ (Did (ShowInfo "Open Folder") ∈ new_actions a a'
      <-> last_folder (session a) = None
          \/ exists p : Path,
               last_folder (session a) = Some p /\ there p = Ok false)
  /\ (Did (ShowError "Open Folder") ∈ new_actions a a'
      <-> exists (p : Path) (cause : string),
            last_folder (session a) = Some p /\ there p = Ok true
            /\ popen (world d) ["xdg-open"; path_str p] = SpawnRaises cause).
Proof.
  intros r a' there. subst r a' there.
  destruct (open_last_folder d a) as [r a'] eqn:H. cbn [fst snd].
  unfold open_last_folder in H. unfold_act H. unfold path_truthy in H.
  cbn [negb] in H. cbv [mbind result_bind] in H.
  destruct (last_folder (session a)) as [p|] eqn:Hl;
    [destruct (path_exists (env (world d)) (path_str p)) as [[]|x] eqn:He;
     [destruct (popen (world d) ["xdg-open"; path_str p]) as [pid|cause] eqn:Hp| |]|];
    cbv beta iota zeta in H; cbn [session settings actions negb] in H;
    injection H as <- <-; cbn [session settings].
  all: (split; [done|]); (split; [done|]).
  all: match goal with
       | |- context [new_actions ?a0 ?a'] =>
           let l := fresh "l" in
           evar (l : list action);
           assert (new_actions a0 a' = l) as ->
             by (apply new_actions_app; cbn [actions];
                 rewrite <- ?app_assoc; subst l;
                 first [reflexivity | symmetry; apply app_nil_r]);
           subst l
       end.
  all: cbn [Datatypes.app].
  all: repeat split.
  all: intros.
  all: repeat match goal with
       | H : _ ∈ _ :: _ |- _ =>
           apply elem_of_cons in H as [H|H];
             [try discriminate H; try (injection H as ->)|]
       | H : _ ∈ [] |- _ => by apply elem_of_nil in H
       | H : _ \/ _ |- _ => destruct H
       | H : exists _, _ |- _ => destruct H
       | H : _ /\ _ |- _ => destruct H
       end.
  all: try done; try congruence.
  all: try (by in_list).
  - by exists p, pid.
  - by exists p, cause.
  - right. by exists p.
  - exists p. split; [done|]. congruence.
  - by left.
Qed.
End OpenFacts.

(** ** The log widget *)

Lemma split_nonempty_list (sep : ascii) (s : string) :
  (1 <= length (split sep s))%nat.
Proof.
  induction s as [|c r IH]; simpl; [lia|].
  destruct (Ascii.eqb c sep); simpl; [lia|].
  destruct (split sep r); simpl in *; lia.
Qed.

Lemma split_with_sep (sep : ascii) (s : string) :
  contains sep s = true -> (2 <= length (split sep s))%nat.
Proof.
  induction s as [|c r IH]; simpl; [done|].
  pose proof (split_nonempty_list sep r) as Hr.
  destruct (Ascii.eqb c sep); simpl; [lia|].
  intros H. specialize (IH H).
  destruct (split sep r); simpl in *; lia.
Qed.

Lemma latest_all {A} (n : nat) (l : list A) :
  (length l <= n)%nat -> latest n l = l.
Proof.
  intros H. unfold latest.
  by replace (length l - n)%nat with 0%nat by lia.
Qed.

Lemma latest_length {A} (n : nat) (l : list A) :
  (length (latest n l) <= n)%nat.
Proof. unfold latest. rewrite length_drop. lia. Qed.

Lemma last_latest {A} (n : nat) (l : list A) (x : A) :
  (0 < n)%nat -> last (latest n (l ++ [x])) = Some x.
Proof.
  intros Hn. unfold latest. rewrite last_lookup, lookup_drop, length_drop.
  rewrite length_app. cbn [length].
  replace (length l + 1 - n + Init.Nat.pred (length l + 1 - (length l + 1 - n)))%nat
    with (length l) by lia.
  by rewrite lookup_app_r, Nat.sub_diag by lia.
Qed.


Lemma log_line_split (ts text : string) :
  contains LF ts = false -> contains LF text = false ->
  split LF ("[" +:+ ts +:+ "] " +:+ text) = ["[" +:+ ts +:+ "] " +:+ text].
Proof.
  intros Hts Htext. apply split_without_sep.
  by rewrite !contains_app, Hts, Htext.
Qed.

(** One line written to a log within the limit leaves its last lines. *)
Lemma log_one_line (ts text : string) (is_err : bool)
    (log : list (string * bool)) :
  contains LF ts = false -> contains LF text = false ->
  (length log < LOG_LINES_MAX)%nat ->
  _log ts text is_err log
  = latest (LOG_LINES_MAX - 1) (log ++ [log_line ts text is_err]).
Proof.
  intros Hts Htext Hlen. unfold _log.
  rewrite (log_line_split ts text Hts Htext). cbn [map]. fold (log_line ts text is_err).
  destruct (Nat.ltb_spec LOG_LINES_MAX (S (length (log ++ [log_line ts text is_err]))))
    as [Hfull|Hroom]; rewrite length_app in *; cbn [length] in *.
  - unfold latest. rewrite length_app. cbn [length].
    replace (length log + 1 - (LOG_LINES_MAX - 1))%nat with 1%nat
      by (unfold LOG_LINES_MAX in *; lia).
    by destruct log.
  - apply eq_sym, latest_all. rewrite length_app. cbn [length].
    unfold LOG_LINES_MAX in *. lia.
Qed.

(** X16: the log widget keeps the last 4999 lines as long as every text it
    is given is one line: the log is then the last lines of the old log
    followed by the new line, and the new line is its last one.  The trim
    removes one line per call, though: a text of several lines (the preview
    of the command is one) written to a full log takes it to the limit and
    beyond. *)
Theorem log_trims_one_line_per_call (ts text : string) (is_err : bool)
    (log : list (string * bool)) :
  contains LF ts = false ->
  (contains LF text = false ->
   (length log < LOG_LINES_MAX)%nat ->
   _log ts text is_err log
   = latest (LOG_LINES_MAX - 1) (log ++ [log_line ts text is_err])
   /\ (length (_log ts text is_err log) < LOG_LINES_MAX)%nat
   /\ last (_log ts text is_err log) = Some (log_line ts text is_err))
  /\ (contains LF text = true ->
      (length log = LOG_LINES_MAX - 1)%nat ->
      (LOG_LINES_MAX <= length (_log ts text is_err log))%nat).
Proof.
  intros Hts. split.
  - intros Htext Hlen. rewrite (log_one_line ts text is_err log Hts Htext Hlen).
    split; [done|]. split.
    + pose proof (latest_length (LOG_LINES_MAX - 1)
                    (log ++ [log_line ts text is_err])) as H.
      unfold LOG_LINES_MAX in *. lia.
    + apply last_latest. unfold LOG_LINES_MAX. lia.
  - intros Htext Hlen. unfold _log.
    assert (contains LF ("[" +:+ ts +:+ "] " +:+ text) = true) as Hc
      by (by rewrite !contains_app, Htext, !orb_true_r).
    apply split_with_sep in Hc.
    set (lines := split LF ("[" +:+ ts +:+ "] " +:+ text)) in *.
    set (log' := log ++ map (fun l => (l, is_err)) lines).
    assert (length log' = length log + length lines)%nat as Hl'
      by (unfold log'; by rewrite length_app, length_map).
    destruct (LOG_LINES_MAX <? S (length log'))%nat.
    + destruct log' as [|x r]; cbn [tail length] in *; lia.
    + lia.
Qed.


(** ** From the streams of the process to the log *)








(** ** The properties on concrete sessions *)

Section Scenarios.
#[local] Existing Instance cpython.

(** C1: the preview changes the state.  With an empty base directory and
    no stored index, "Copy Command" shows [tape1] and leaves the next
    index of the base directory at 2; the capture started after it goes
    to [tape2], where a capture started without the preview goes to
    [tape1]. *)
Theorem copy_command_changes_next_allocation :
  let w := home_world env_installed [] (Spawned 4242) in
  let st0 := idle default_widgets in
  let st1 := (copy_command w st0).2 in
  cfg st0 !! videos = None
  /\ cfg st1 !! videos = Some 2
  /\ last_folder (start_capture w st0).2
     = Some (path_of_str "/home/user/Videos/tape1")
  /\ last_folder (start_capture w st1).2
     = Some (path_of_str "/home/user/Videos/tape2").
Proof. vm_compute. repeat split; reflexivity. Qed.

(** C2 fails as stated: the same configuration and target directory give
    two different vectors, depending on whether the PATH search finds
    dvgrab. *)
Lemma build_dvgrab_cmd_depends_on_path_search :
  let v := _gather_values default_widgets in
  let d := path_of_str "/home/user/Videos/tape1" in
  build_dvgrab_cmd env_installed v d
  = Ok ["/usr/bin/dvgrab"; "-format"; "dv2"; "-timestamp"; "-size"; "0";
        "-showstatus"; "-opendml"; "/home/user/Videos/tape1/clip-"]
  /\ build_dvgrab_cmd env_missing v d
     = Ok ["dvgrab"; "-format"; "dv2"; "-timestamp"; "-size"; "0";
           "-showstatus"; "-opendml"; "/home/user/Videos/tape1/clip-"]
  /\ build_dvgrab_cmd env_installed v d <> build_dvgrab_cmd env_missing v d.
Proof. vm_compute. repeat split; [reflexivity..|discriminate]. Qed.

(** C2 as amended, on the default configuration: without dvgrab on the
    PATH the vector is the same whatever else is installed; a configured
    path with a separator gives the same vector whether dvgrab is installed
    or not; the two vectors of the counterexample agree after their first
    element; and when the existence test raises, the call raises. *)
Lemma build_dvgrab_cmd_env_decides_executable_only_witness :
  let d := path_of_str "/home/user/Videos/tape1" in
  let v := _gather_values default_widgets in
  let v' := _gather_values (with_dvgrab_path "/opt/dv/dvgrab" default_widgets) in
  build_dvgrab_cmd env_missing v d = build_dvgrab_cmd env_other v d
  /\ build_dvgrab_cmd env_installed v' d = build_dvgrab_cmd env_missing v' d
  /\ tail ["/usr/bin/dvgrab"; "-format"; "dv2"; "-timestamp"; "-size"; "0";
           "-showstatus"; "-opendml"; "/home/user/Videos/tape1/clip-"]
     = tail ["dvgrab"; "-format"; "dv2"; "-timestamp"; "-size"; "0";
             "-showstatus"; "-opendml"; "/home/user/Videos/tape1/clip-"]
  /\ build_dvgrab_cmd env_unreadable v d = Raise OSError
  /\ (exists cmd, build_dvgrab_cmd env_missing v d = Ok cmd).
Proof.
  intros d v v'. split; [|split; [|split; [|split]]].
  - apply (proj1 (proj2 (build_dvgrab_cmd_env_decides_executable_only
                           env_missing env_other v d))).
    intros pp Hpp. vm_compute in Hpp. injection Hpp as <-.
    split; [|reflexivity]. by intros s [= <-].
  - apply (proj1 (proj2 (proj2 (build_dvgrab_cmd_env_decides_executable_only
                                  env_installed env_missing v' d)))
             "/opt/dv/dvgrab"); reflexivity.
  - apply (proj1 (build_dvgrab_cmd_env_decides_executable_only
                    env_installed env_missing v d)); reflexivity.
  - apply (proj1 (proj2 (proj2 (proj2
             (build_dvgrab_cmd_env_decides_executable_only
                env_unreadable env_missing v d)))) "dvgrab" OSError);
      [reflexivity|discriminate|reflexivity].
  - apply (proj2 (proj2 (proj2 (proj2
             (build_dvgrab_cmd_env_decides_executable_only
                env_installed env_missing v d))))
             ["/usr/bin/dvgrab"; "-format"; "dv2"; "-timestamp"; "-size"; "0";
              "-showstatus"; "-opendml"; "/home/user/Videos/tape1/clip-"]);
      [reflexivity|]. by intros s _.
Defined.

(** C3 fails as stated: the entry ["-5"] reads as the negative integer
    -5 and is gathered as -5, not as the default 0. *)
Lemma gather_keeps_negative_size :
  int_of_str "-5" = Ok (-5)
  /\ _gather_values (with_size_mb "-5" default_widgets) !! "size_mb"
     = Some (VInt (-5))
  /\ _gather_values (with_size_mb "-5" default_widgets) !! "size_mb"
     <> Some (VInt 0).
Proof. vm_compute. repeat split; [reflexivity..|discriminate]. Qed.

Lemma gather_numeric_passes_integers_through_witness :
  ("size_mb", size_mb_var, 0) ∈ numeric_fields
  /\ _gather_values (with_size_mb "-5" default_widgets) !! "size_mb"
     = Some (VInt (-5))
  /\ _gather_values (with_size_mb "12" default_widgets) !! "size_mb"
     = Some (VInt 12)
  /\ _gather_values (with_size_mb "12 MB" default_widgets) !! "size_mb"
     = Some (VInt 0).
Proof.
  assert (("size_mb", size_mb_var, 0) ∈ numeric_fields) as Hin.
  { apply elem_of_cons. right. apply elem_of_cons. by left. }
  split; [exact Hin|]. split; [|split].
  - apply (proj1 (gather_numeric_passes_integers_through
                    "size_mb" size_mb_var 0
                    (with_size_mb "-5" default_widgets) Hin) (-5) "-5");
      reflexivity.
  - apply (proj1 (proj2 (gather_numeric_passes_integers_through
                    "size_mb" size_mb_var 0
                    (with_size_mb "12" default_widgets) Hin)) 12);
      reflexivity.
  - apply (proj2 (proj2 (gather_numeric_passes_integers_through
                    "size_mb" size_mb_var 0
                    (with_size_mb "12 MB" default_widgets) Hin)) ValueError);
      reflexivity.
Defined.

(** C4 fails as stated: a child named [tape7] that is a regular file does
    not count.  The allocation returns [tape1] and stores 2, where the
    greatest index over all the children, plus one, is 8. *)
Lemma find_next_subfolder_skips_files :
  let children := [("tape7", false)] in
  let w := home_world env_installed children (Spawned 4242) in
  match find_next_subfolder w (path_of_str videos) "tape" ∅ with
  | Ok (candidate, c) =>
      path_str candidate = "/home/user/Videos/tape1" /\ c !! videos = Some 2
  | Raise _ => False
  end
  /\ Z.max 1 (max_existing "tape" (names children) + 1) = 8.
Proof. vm_compute. repeat split; reflexivity. Qed.

(** The scenario of C4: [tape1] and [tape3] exist, no index is stored;
    the allocation returns [tape4] and stores 5. *)
Lemma find_next_subfolder_index_witness :
  let children := [("tape1", true); ("tape3", true)] in
  let w := home_world env_installed children (Spawned 4242) in
  find_next_subfolder w (path_of_str videos) "tape" ∅
  = Ok (path_of_str "/home/user/Videos/tape4", {[videos := 5]}).
Proof.
  intros children w.
  rewrite (find_next_subfolder_index w (path_of_str videos) "tape" ∅
             children "4").
  - vm_compute. reflexivity.
  - reflexivity.
  - reflexivity.
  - repeat constructor.
  - reflexivity.
Defined.

(** C5: with an empty output path the capture is not refused.  The empty
    path is the current directory: a subfolder is allocated and made
    there, the advanced index is saved and dvgrab is started. *)
Theorem start_capture_accepts_empty_output_dir :
  let w := home_world env_installed [] (Spawned 4242) in
  let st := idle (with_output_dir "" default_widgets) in
  let cmd := ["/usr/bin/dvgrab"; "-format"; "dv2"; "-timestamp"; "-size"; "0";
              "-showstatus"; "-opendml"; "/home/user/tape1/clip-"] in
  strip (output_dir_var (vars st)) = ""
  /\ (start_capture w st).1 = Ok tt
  /\ trace (start_capture w st).2
     = [Mkdir (path_of_str "/home/user");
        Mkdir (path_of_str "/home/user/tape1");
        SaveConfig {["/home/user" := 2]};
        LogText "Starting capture in: /home/user/tape1";
        LogCommand cmd; Popen cmd]
  /\ proc (start_capture w st).2 = Some 4242.
Proof. vm_compute. repeat split; reflexivity. Qed.

(** C6 fails as stated: with dvgrab neither at the configured path nor on
    the PATH, the capture is refused before any directory is made; the
    only effect is the "dvgrab not found" dialog. *)
Lemma start_capture_missing_executable_makes_no_directory :
  let w := home_world env_missing [] (SpawnRaises "No such file or directory") in
  let st := idle default_widgets in
  trace (start_capture w st).2 = [ShowError "dvgrab not found"]
  /\ last_folder (start_capture w st).2 = None
  /\ cfg (start_capture w st).2 !! videos = None.
Proof. vm_compute. repeat split; reflexivity. Qed.

Lemma start_capture_missing_executable_witness :
  let w := home_world env_missing [] (SpawnRaises "No such file or directory") in
  let w' := home_world env_unreadable [] (Spawned 4242) in
  let st := idle default_widgets in
  start_capture w st
  = (Ok tt, mkState ∅ None None false false default_widgets
              [ShowError "dvgrab not found"])
  /\ start_capture w' st = (Raise OSError, st).
Proof.
  intros w w' st. split.
  - apply (proj1 (start_capture_missing_executable w st eq_refl)); reflexivity.
  - apply (proj2 (start_capture_missing_executable w' st eq_refl) OSError).
    reflexivity.
Defined.

(** C7 fails as stated: with the entry ["-1"] the vector holds no
    ["-size"] at all. *)
Lemma build_dvgrab_cmd_omits_negative_size :
  let v := _gather_values (with_size_mb "-1" default_widgets) in
  let d := path_of_str "/home/user/Videos/tape1" in
  v !! "size_mb" = Some (VInt (-1))
  /\ build_dvgrab_cmd env_installed v d
     = Ok ["/usr/bin/dvgrab"; "-format"; "dv2"; "-timestamp";
           "-showstatus"; "-opendml"; "/home/user/Videos/tape1/clip-"]
  /\ forall cmd, build_dvgrab_cmd env_installed v d = Ok cmd -> "-size" ∉ cmd.
Proof.
  vm_compute. repeat split; try reflexivity.
  intros cmd [= <-] Hin.
  repeat (apply elem_of_cons in Hin as [Hin|Hin]; [discriminate Hin|]).
  by apply elem_of_nil in Hin.
Qed.

Lemma build_dvgrab_cmd_size_when_nonnegative_witness :
  let d := path_of_str "/home/user/Videos/tape1" in
  (exists s, str_of_int 0 = Ok s
     /\ adjacent "-size" s
          ["/usr/bin/dvgrab"; "-format"; "dv2"; "-timestamp"; "-size"; "0";
           "-showstatus"; "-opendml"; "/home/user/Videos/tape1/clip-"])
  /\ (exists cmd s,
        build_dvgrab_cmd env_installed
          (_gather_values (with_size_mb "700" default_widgets)) d = Ok cmd
        /\ str_of_int (_as_int "700" 0) = Ok s
        /\ adjacent "-size" s cmd).
Proof.
  intros d. split.
  - apply (proj1 (build_dvgrab_cmd_size_when_nonnegative env_installed d)
             (_gather_values default_widgets)).
    + reflexivity.
    + reflexivity.
    + lia.
  - apply (proj2 (build_dvgrab_cmd_size_when_nonnegative env_installed d)
             (with_size_mb "700" default_widgets)).
    + vm_compute. discriminate.
    + reflexivity.
Defined.

(** The example of C8: the chunk, read as [subprocess.Popen(...,
    text=True)] delivers it, every carriage return already a line end,
    gives the two log lines. *)
Lemma read_stream_text_mode_example :
  readlines (universal_newlines progress_chunk)
  = ["Capturing... 00:01" +:+ String LF ""; "Capturing... 00:02" +:+ String LF ""]
  /\ _read_stream (Some (readlines (universal_newlines progress_chunk))) None
     = [("Capturing... 00:01", None); ("Capturing... 00:02", None)].
Proof. vm_compute. split; reflexivity. Qed.

(** C9 on the default configuration and the directory
    [/home/user/Videos/tape1]: a vector is returned, and its last element
    is the text of the directory, a separator and ["clip-"]. *)
Lemma build_dvgrab_cmd_last_is_output_prefix_witness :
  let d := path_of_str "/home/user/Videos/tape1" in
  path_str d = "/home/user/Videos/tape1"
  /\ exists cmd,
       build_dvgrab_cmd env_installed (_gather_values default_widgets) d = Ok cmd
       /\ last cmd = Some "/home/user/Videos/tape1/clip-".
Proof.
  intros d. split; [reflexivity|].
  destruct (proj2 (build_dvgrab_cmd_last_is_output_prefix env_installed d)
              default_widgets eq_refl) as (cmd & Hcmd & Hlast).
  exists cmd. split; [exact Hcmd|]. rewrite Hlast. reflexivity.
Defined.


(** A run of X2, on the default configuration without its format: the call
    raises. *)
Lemma build_dvgrab_cmd_raises_witness :
  let v := delete "format" (_gather_values default_widgets) in
  let d := path_of_str "/home/user/Videos/tape1" in
  v !! "format" = None
  /\ exists x : exn, build_dvgrab_cmd env_installed v d = Raise x.
Proof.
  intros v d.
  assert (v !! "format" = None) as Hv by (vm_compute; reflexivity).
  split; [exact Hv|].
  apply (proj2 (build_dvgrab_cmd_raises env_installed v d) "format");
    [in_list|exact Hv].
Defined.

(** A run of X3, on the default configuration without the entry ["opendml"]: the
    vector is the one of the entry set to [False], without [-opendml]. *)
Lemma build_dvgrab_cmd_optional_defaults_witness :
  let v := delete "opendml" (_gather_values default_widgets) in
  let d := path_of_str "/home/user/Videos/tape1" in
  build_dvgrab_cmd env_installed v d
  = build_dvgrab_cmd env_installed (<["opendml" := VBool false]> v) d
  /\ build_dvgrab_cmd env_installed v d
     = Ok ["/usr/bin/dvgrab"; "-format"; "dv2"; "-timestamp"; "-size"; "0";
           "-showstatus"; "/home/user/Videos/tape1/clip-"].
Proof.
  intros v d. split.
  - symmetry.
    apply (build_dvgrab_cmd_optional_defaults env_installed v d "opendml"
             (VBool false)).
    + unfold optional_defaults. in_list.
    + vm_compute. reflexivity.
  - vm_compute. reflexivity.
Defined.

(** A run of X5, on the default widgets. *)
Lemma build_dvgrab_cmd_format_from_widgets_witness :
  let d := path_of_str "/home/user/Videos/tape1" in
  exists rest : list string,
    build_dvgrab_cmd env_installed (_gather_values default_widgets) d
    = Ok ("/usr/bin/dvgrab" :: "-format" :: "dv2" :: "-timestamp" :: rest).
Proof.
  intros d.
  destruct (build_dvgrab_cmd_format_from_widgets env_installed default_widgets
              d "/usr/bin/dvgrab") as [_ [rest H]].
  - vm_compute. reflexivity.
  - exists rest. exact H.
Defined.


(** A run of X19: the first allocation in the empty [Videos] returns
    [tape1]; the second one, made while [Videos] cannot be listed, returns
    [tape2]. *)
Lemma find_next_subfolder_never_repeats_witness :
  let w1 := home_world env_installed [] (Spawned 4242) in
  let tape1 := path_of_str "/home/user/Videos/tape1" in
  let tape2 := path_of_str "/home/user/Videos/tape2" in
  find_next_subfolder w1 (path_of_str videos) "tape" ∅
  = Ok (tape1, {[videos := 2]})
  /\ find_next_subfolder unlisted_world (path_of_str videos) "tape"
       {[videos := 2]}
     = Ok (tape2, {[videos := 3]})
  /\ tape1 <> tape2.
Proof.
  intros w1 tape1 tape2.
  assert (find_next_subfolder w1 (path_of_str videos) "tape" ∅
          = Ok (tape1, {[videos := 2]})) as H1 by (vm_compute; reflexivity).
  assert (find_next_subfolder unlisted_world (path_of_str videos) "tape"
            {[videos := 2]}
          = Ok (tape2, {[videos := 3]})) as H2 by (vm_compute; reflexivity).
  split; [exact H1|]. split; [exact H2|].
  exact (proj1 (find_next_subfolder_never_repeats w1 unlisted_world
                  (path_of_str videos) "tape" ∅ {[videos := 2]}
                  {[videos := 2]} {[videos := 3]} tape1 tape2
                  eq_refl eq_refl H1 eq_refl H2)).
Defined.



(** A run of X20: dvgrab is not installed and the configuration is the
    default one; the launch shows the warning and the capture is
    refused. *)
Lemma startup_warning_matches_start_capture_witness :
  let d := desk (home_world env_missing [] (Spawned 4242)) true true in
  let st := idle default_widgets in
  startup_warning d (default_config d) = Ok true
  /\ new_effects st (start_capture (world d) st).2
     = [ShowError "dvgrab not found"].
Proof.
  intros d st.
  pose proof (startup_warning_matches_start_capture d (default_config d)
                "dvgrab" st eq_refl eq_refl ltac:(discriminate) eq_refl
                eq_refl) as H.
  assert (startup_warning d (default_config d) = Ok true) as Hw
    by (vm_compute; reflexivity).
  rewrite Hw in H. split; [exact Hw|exact (proj2 H)].
Defined.

(** A run of X12: the configuration file cannot be written; the call raises and
    logs nothing, and the configuration holds the format of the widgets. *)
Lemma save_settings_effects_witness :
  let d := desk unsaved_world true true in
  let a' := (save_settings d launched).2 in
  (exists x : exn, (save_settings d launched).1 = Raise x)
  /\ new_actions launched a' = []
  /\ settings a' !! "format" = Some (VStr "dv2").
Proof.
  intros d a'.
  destruct (save_settings_effects d launched) as (_ & Hk & _ & _ & _ & Hfail).
  destruct (Hfail eq_refl) as [Hr Hn].
  split; [exact Hr|]. split; [exact Hn|].
  apply Hk. vm_compute. reflexivity.
Defined.

(** A run of X14: the user agrees to stop the running capture; the process group
    is interrupted, the process waited for and the window destroyed. *)
Lemma on_close_effects_witness :
  let d := desk (home_world env_installed [] (Spawned 4242)) true true in
  let a := running 4242 (path_of_str "/home/user/Videos/tape1") in
  let a' := (on_close d a).2 in
  Destroyed ∈ new_actions a a'
  /\ last (new_actions a a') = Some Destroyed
  /\ stop_requested (session a') = true.
Proof.
  intros d a a'.
  destruct (on_close_effects d a)
    as (_ & _ & _ & _ & _ & Hd & Hlast & _ & Hw).
  assert (Destroyed ∈ new_actions a a') as Hin
    by (apply (proj2 Hd); right; reflexivity).
  split; [exact Hin|]. split; [exact (Hlast Hin)|].
  apply (Hw 4242). vm_compute.
  repeat first [apply list_elem_of_here | apply list_elem_of_further].
Defined.

(** A run of X15: the folder of the first capture exists; it is opened. *)
Lemma open_last_folder_effects_witness :
  let d := desk (home_world env_captured [] (Spawned 77)) true true in
  let a := running 4242 (path_of_str "/home/user/Videos/tape1") in
  let a' := (open_last_folder d a).2 in
  (open_last_folder d a).1 = Ok tt
  /\ new_actions a a' = [Did (Popen ["xdg-open"; "/home/user/Videos/tape1"])].
Proof.
  intros d a a'.
  destruct (open_last_folder_effects d a) as (_ & _ & Hopen & _).
  destruct (Hopen ["xdg-open"; "/home/user/Videos/tape1"])
    as (p & pid & _ & _ & _ & _ & Hr & Hn).
  - vm_compute. apply list_elem_of_here.
  - split; [exact Hr|exact Hn].
Defined.

(** A run of X16: a progress line written to a log of 4999 lines leaves 4999
    lines; the preview of a command, two lines, leaves 5000. *)
Lemma log_trims_one_line_per_call_witness :
  let log := full_log 4999 in
  let preview := "Copied command:" +:+ String LF "dvgrab -format dv2 clip-" in
  (length (_log "12:00:00" "Capturing" false log) < LOG_LINES_MAX)%nat
  /\ (LOG_LINES_MAX <= length (_log "12:00:00" preview false log))%nat.
Proof.
  intros log preview.
  assert (length log = LOG_LINES_MAX - 1)%nat as Hlen
    by (vm_compute; reflexivity).
  split.
  - destruct (proj1 (log_trims_one_line_per_call "12:00:00" "Capturing" false
                       log eq_refl) eq_refl) as (_ & Hb & _); [|exact Hb].
    rewrite Hlen. unfold LOG_LINES_MAX. lia.
  - exact (proj2 (log_trims_one_line_per_call "12:00:00" preview false log
                    eq_refl) eq_refl Hlen).
Defined.


End Scenarios.
